(** * lisa.target_script: the TargetScript accumulator, over an abstract devlib target

    Shallow embedding of [src/lisa/target_script.py].  A [TargetScript]
    accumulates shell commands, serialises them to a local file,
    installs that file on a devlib target and runs it there.

    The devlib target, the [subprocess.Popen] handle it hands out and the
    host ([open], the attributes every Python object inherits) are
    collaborators of the class: they are taken as an interface
    ([Devlib.Target], [Devlib.Host]) over an arbitrary state, and every
    call the class makes to them is recorded in a log, so that statements
    of the form "exactly one call to ..." can be made. *)

From Stdlib Require Import Ascii String ZArith.
From stdpp Require Import gmap strings list.

Local Open Scope string_scope.
Local Open Scope list_scope.
Local Open Scope Z_scope.

(** ** Python string helpers *)

Module Py.

(** The one-character string ['\n']. *)
Definition nl : string := String (ascii_of_nat 10) "".

(** [str.join(sep, l)] *)
Fixpoint join (sep : string) (l : list string) : string :=
  match l with
  | [] => ""
  | [x] => x
  | x :: rest => x +:+ sep +:+ join sep rest
  end.

(** [s.startswith(pre)] *)
Definition startswith (pre s : string) : bool := String.prefix pre s.

(** [s.endswith(suf)] *)
Definition endswith (suf s : string) : bool :=
  let n := String.length s in
  let k := String.length suf in
  (k <=? n)%nat && String.eqb (String.substring (n - k) k s) suf.

(** [os.path.join(a, b)] for two components, POSIX flavour. *)
Definition path_join (a b : string) : string :=
  if startswith "/" b then b
  else if String.eqb a "" || endswith "/" a then a +:+ b
  else a +:+ "/" +:+ b.

(** [c in s] for a character [c]. *)
Fixpoint has (c : ascii) (s : string) : bool :=
  match s with
  | "" => false
  | String a rest => Ascii.eqb a c || has c rest
  end.

(** [s.split(c)] for a one-character separator [c]. *)
Fixpoint split (c : ascii) (s : string) : list string :=
  match s with
  | "" => [""]
  | String a rest =>
      if Ascii.eqb a c then "" :: split c rest
      else
        match split c rest with
        | x :: xs => String a x :: xs
        | [] => [String a ""]
        end
  end.

End Py.

(** ** The collaborators *)

Module Devlib.

Section Interface.
(** [T]: state of the device and of the processes started on it;
    [P]: [subprocess.Popen] handles; [V]: values of device properties;
    [E]: whatever a collaborator raises. *)
Context {T P V E : Type}.

(** What a collaborator call does: it raises or returns, and leaves a
    new device state. *)
Definition op (A : Type) : Type := T -> (E + A) * T.

(** [devlib.target.Target], together with the two methods used of the
    [Popen] object that [background] returns.  [file_exists] gives the
    truth value of what the Python method returns. *)
Record Target := {
  busybox : T -> string;
  install : gmap string string -> string -> op string;
  file_exists : string -> op bool;
  execute : string -> bool -> option Z -> op unit;
  background : string -> bool -> op P;
  check_responsive : bool -> op unit;
  kill : string -> bool -> op unit;
  getattr : string -> op V;
  poll : P -> op (option Z);
  proc_kill : P -> op unit
}.

(** The host interpreter.  [open_w path files] is [None] when
    [open(path, 'w')] succeeds and [Some e] when it raises [e];
    [object_attr name] tells whether [name] is resolved by [object] or by
    the class machinery ([__class__], [__dict__], [__doc__], ...), which
    depends on the interpreter's version. *)
Record Host := {
  open_w : string -> gmap string string -> option E;
  object_attr : string -> bool
}.
End Interface.

Arguments Target : clear implicits.
Arguments Host : clear implicits.

End Devlib.

(** ** The class *)

Section TargetScript.
Context {T P V E : Type}.
Context (target : Devlib.Target T P V E) (host : Devlib.Host E).

(** Exceptions.  The first four are raised by the class itself or by the
    interpreter on its behalf; [Foreign] wraps what a collaborator
    raised. *)
Inductive exn : Type :=
| FileNotFoundError (msg : string)
| RuntimeError (msg : string)
| AttributeError (name : string)
| ValueError (msg : string)
| Foreign (e : E).

(** Calls made to the collaborators, in the order they are made. *)
Inductive event : Type :=
| EOpenWrite (path text : string)
| EInstall (path : string)
| EFileExists (path : string)
| EExecute (path : string) (as_root : bool) (timeout : option Z)
| EBackground (path : string) (as_root : bool)
| ECheckResponsive (explode : bool)
| ESleep (seconds : Z)
| EKill (pid : string) (as_root : bool)
| EPoll (p : P)
| EProcKill (p : P)
| EGetattr (name : string).

(** The instance attributes set by [__init__], except [target], which is
    the section's [target].  [_proc] is [None] or a [Popen] object, and a
    [Popen] object is true as a condition. *)
Record TargetScript : Type := {
  script_name : string;
  local_path : string;
  remote_path : string;
  commands : list string;
  _proc : option P
}.

(** Everything outside the object: the host's files, the device, and
    the log of collaborator calls (oldest first). *)
Record World : Type := {
  files : gmap string string;
  device : T;
  log : list event
}.

Record State : Type := { self : TargetScript; world : World }.

(** *** A state-and-exception monad for method bodies

    [Diverge] is the result of a loop that was still running when the
    fuel given to it ran out. *)

Inductive outcome (A : Type) : Type :=
| Ret (a : A)
| Raise (e : exn)
| Diverge.
Arguments Ret {A} a.
Arguments Raise {A} e.
Arguments Diverge {A}.

Definition M (A : Type) : Type := State -> outcome A * State.

Definition ret {A} (a : A) : M A := fun st => (Ret a, st).
Definition raise {A} (e : exn) : M A := fun st => (Raise e, st).
Definition diverge {A} : M A := fun st => (Diverge, st).

Definition bind {A B} (m : M A) (k : A -> M B) : M B := fun st =>
  match m st with
  | (Ret a, st') => k a st'
  | (Raise e, st') => (Raise e, st')
  | (Diverge, st') => (Diverge, st')
  end.

Notation "'let*' x ':=' m 'in' k" := (bind m (fun x => k))
  (at level 10, x name, m at level 100, k at level 200).
Notation "m ';;' k" := (bind m (fun _ => k))
  (at level 100, k at level 200, right associativity).

(** What the caller sees of a collaborator's answer. *)
Definition answer {A} (r : E + A) : outcome A :=
  match r with inl e => Raise (Foreign e) | inr a => Ret a end.

Definition get_self : M TargetScript := fun st => (Ret (self st), st).
Definition get_world : M World := fun st => (Ret (world st), st).
Definition put_self (s : TargetScript) : M unit := fun st =>
  (Ret tt, {| self := s; world := world st |}).
Definition put_world (w : World) : M unit := fun st =>
  (Ret tt, {| self := self st; world := w |}).

Definition emit (ev : event) : M unit :=
  let* w := get_world in
  put_world {| files := files w; device := device w; log := log w ++ [ev] |}.

(** A call to the target (or to a [Popen] handle): logged, then run on
    the device. *)
Definition call {A} (ev : event) (f : Devlib.op A) : M A :=
  emit ev ;;
  let* w := get_world in
  let '(r, d) := f (device w) in
  put_world {| files := files w; device := d; log := log w |} ;;
  match r with
  | inl e => raise (Foreign e)
  | inr a => ret a
  end.

(** [with open(path, 'w') as script: script.write(text)] *)
Definition write_file (path text : string) : M unit :=
  emit (EOpenWrite path text) ;;
  let* w := get_world in
  match Devlib.open_w host path (files w) with
  | Some e => raise (Foreign e)
  | None =>
      put_world {| files := <[path := text]> (files w);
                   device := device w; log := log w |}
  end.

(** [time.sleep] *)
Definition sleep (seconds : Z) : M unit :=
  if seconds <? 0 then raise (ValueError "sleep length must be non-negative")
  else emit (ESleep seconds).

(** [self._proc], for a method call on it: [None] has no methods. *)
Definition the_proc (method : string) : M P :=
  let* s := get_self in
  match _proc s with
  | Some p => ret p
  | None => raise (AttributeError method)
  end.

(** *** Methods *)

Definition _target_attrs : list string :=
  ["screen_resolution"; "android_id"; "abi"; "os_version"; "model"].

Definition __init__ (script_name local_dir : string) : TargetScript :=
  {| script_name := script_name;
     local_path := Py.path_join local_dir script_name;
     remote_path := "";
     commands := [];
     _proc := None |}.

Definition append (cmd : string) : M unit :=
  let* s := get_self in
  put_self {| script_name := script_name s;
              local_path := local_path s;
              remote_path := remote_path s;
              commands := commands s ++ [cmd];
              _proc := _proc s |}.

Definition execute (cmd : string) : M unit := append cmd.

(** The text [push] serialises: the value of [actions] after line 99. *)
Definition script_text (busybox : string) (commands : list string) : string :=
  let actions := ["set -e"] ++ commands ++ ["set +e"] in
  let actions := ["#!" +:+ busybox +:+ " sh"] ++ actions in
  Py.join Py.nl actions.

Definition push : M unit :=
  let* s := get_self in
  let* w := get_world in
  let actions := script_text (Devlib.busybox target (device w)) (commands s) in
  write_file (local_path s) actions ;;
  let* s := get_self in
  let* w := get_world in
  let* r := call (EInstall (local_path s))
                 (Devlib.install target (files w) (local_path s)) in
  let* s := get_self in
  put_self {| script_name := script_name s;
              local_path := local_path s;
              remote_path := r;
              commands := commands s;
              _proc := _proc s |}.

Definition missing_msg : string := "Remote script was not found on target device".
Definition no_background_msg : string := "No background process currently executing".

Definition _prerun_check : M unit :=
  let* s := get_self in
  let* found := call (EFileExists (remote_path s))
                     (Devlib.file_exists target (remote_path s)) in
  if negb found then raise (FileNotFoundError missing_msg) else ret tt.

Definition run (as_root : bool) (timeout : option Z) : M unit :=
  _prerun_check ;;
  let* s := get_self in
  call (EExecute (remote_path s) as_root timeout)
       (Devlib.execute target (remote_path s) as_root timeout).

Definition background (as_root : bool) : M (option P) :=
  _prerun_check ;;
  let* s := get_self in
  let* p := call (EBackground (remote_path s) as_root)
                 (Devlib.background target (remote_path s) as_root) in
  let* s := get_self in
  put_self {| script_name := script_name s;
              local_path := local_path s;
              remote_path := remote_path s;
              commands := commands s;
              _proc := Some p |} ;;
  let* s := get_self in
  ret (_proc s).

(** The [while] loop of [wait]; [fuel] bounds the number of polls. *)
Fixpoint wait_loop (fuel : nat) (poll_sleep_s : Z) : M unit :=
  match fuel with
  | O => diverge
  | S fuel' =>
      let* p := the_proc "poll" in
      let* code := call (EPoll p) (Devlib.poll target p) in
      match code with
      | Some _ => ret tt
      | None =>
          call (ECheckResponsive true) (Devlib.check_responsive target true) ;;
          sleep poll_sleep_s ;;
          wait_loop fuel' poll_sleep_s
      end
  end.

Definition wait (poll_sleep_s : Z) (fuel : nat) : M unit :=
  let* s := get_self in
  match _proc s with
  | None => raise (RuntimeError no_background_msg)
  | Some _ => wait_loop fuel poll_sleep_s
  end.

Definition kill (as_root : bool) : M unit :=
  let* s := get_self in
  match _proc s with
  | None => raise (RuntimeError no_background_msg)
  | Some _ =>
      let cmd_pid := "$(pgrep -x " +:+ script_name s +:+ ")" in
      call (EKill cmd_pid as_root) (Devlib.kill target cmd_pid as_root) ;;
      let* p := the_proc "kill" in
      call (EProcKill p) (Devlib.proc_kill target p)
  end.

(** *** Attribute access *)

Inductive pyval : Type :=
| VTarget
| VStr (s : string)
| VList (l : list string)
| VNone
| VPopen (p : P)
| VMethod (name : string)
| VInherited (name : string)
| VRemote (v : V).

(** The instance's [__dict__]. *)
Definition instance_attr (s : TargetScript) (name : string) : option pyval :=
  if String.eqb name "target" then Some VTarget
  else if String.eqb name "script_name" then Some (VStr (script_name s))
  else if String.eqb name "local_path" then Some (VStr (local_path s))
  else if String.eqb name "remote_path" then Some (VStr (remote_path s))
  else if String.eqb name "commands" then Some (VList (commands s))
  else if String.eqb name "_proc" then
    Some (match _proc s with Some p => VPopen p | None => VNone end)
  else None.

Definition methods : list string :=
  ["__init__"; "execute"; "append"; "__getattr__"; "push"; "_prerun_check";
   "run"; "background"; "wait"; "kill"].

(** What the class body defines. *)
Definition class_attr (name : string) : option pyval :=
  if String.eqb name "_target_attrs" then Some (VList _target_attrs)
  else if bool_decide (name ∈ methods) then Some (VMethod name)
  else None.

(** [object.__getattribute__(self, name)]: the normal resolution. *)
Definition object_getattribute (name : string) : M pyval :=
  let* s := get_self in
  match instance_attr s name with
  | Some v => ret v
  | None =>
      match class_attr name with
      | Some v => ret v
      | None =>
          if Devlib.object_attr host name then ret (VInherited name)
          else raise (AttributeError name)
      end
  end.

Definition __getattr__ (name : string) : M pyval :=
  if negb (Py.startswith "__" name && Py.endswith "__" name)
     && bool_decide (name ∈ _target_attrs)
  then
    let* v := call (EGetattr name) (Devlib.getattr target name) in
    ret (VRemote v)
  else object_getattribute name.

(** Reading [script.name]: the normal resolution, and [__getattr__] when
    that raises [AttributeError]. *)
Definition read_attr (name : string) : M pyval := fun st =>
  match object_getattribute name st with
  | (Raise (AttributeError _), st') => __getattr__ name st'
  | r => r
  end.

(** *** Sequences of method calls *)

Inductive method_call : Type :=
| CAppend (cmd : string)
| CExecute (cmd : string)
| CPush
| CRun (as_root : bool) (timeout : option Z)
| CBackground (as_root : bool)
| CWait (poll_sleep_s : Z) (fuel : nat)
| CKill (as_root : bool)
| CRead (name : string).

Definition invoke (c : method_call) : M pyval :=
  match c with
  | CAppend cmd => append cmd ;; ret VNone
  | CExecute cmd => execute cmd ;; ret VNone
  | CPush => push ;; ret VNone
  | CRun as_root timeout => run as_root timeout ;; ret VNone
  | CBackground as_root =>
      let* r := background as_root in
      ret (match r with Some p => VPopen p | None => VNone end)
  | CWait poll_sleep_s fuel => wait poll_sleep_s fuel ;; ret VNone
  | CKill as_root => kill as_root ;; ret VNone
  | CRead name => read_attr name
  end.

(** A caller that makes the calls of [cs] one after the other and goes on
    after an exception; it never comes back from a call that diverges.
    The result is what each call made gave, and the final state. *)
Fixpoint session (cs : list method_call) (st : State)
  : list (method_call * outcome pyval) * State :=
  match cs with
  | [] => ([], st)
  | c :: cs' =>
      match invoke c st with
      | (Diverge, st') => ([(c, Diverge)], st')
      | (o, st') =>
          let '(h, st'') := session cs' st' in ((c, o) :: h, st'')
      end
  end.

Definition returned {A} (o : outcome A) : bool :=
  match o with Ret _ => true | _ => false end.

(** No [push] of the history returned normally. *)
Definition never_pushed (h : list (method_call * outcome pyval)) : Prop :=
  ∀ o, (CPush, o) ∈ h → returned o = false.

(** No [background] call occurs in the sequence. *)
Definition no_background (cs : list method_call) : Prop :=
  ∀ as_root, CBackground as_root ∉ cs.

(** [m] leaves every attribute of the object as it found it. *)
Definition keeps_self {A} (m : M A) : Prop :=
  ∀ st, self (m st).2 = self st.

(** [m] leaves the host's files as it found them. *)
Definition keeps_files {A} (m : M A) : Prop :=
  ∀ st, files (world (m st).2) = files (world st).

(** The commands that the [append] and [execute] calls of a history
    were given, in the order of the calls. *)
Definition appended (h : list (method_call * outcome pyval)) : list string :=
  flat_map (λ entry,
              match entry.1 with
              | CAppend cmd | CExecute cmd => [cmd]
              | _ => []
              end) h.

(** The state of a script just constructed, in world [w]. *)
Definition constructed (script_name local_dir : string) (w : World) : State :=
  {| self := __init__ script_name local_dir; world := w |}.

End TargetScript.

Arguments exn : clear implicits.
Arguments event : clear implicits.
Arguments TargetScript : clear implicits.
Arguments World : clear implicits.
Arguments State : clear implicits.
Arguments pyval : clear implicits.
Arguments outcome : clear implicits.
Arguments Ret {E A} a.
Arguments Raise {E A} e.
Arguments Diverge {E A}.

(** ** Stub collaborators

    A simulated phone and host, as a test double would provide them. *)

Module Stub.

(** The files installed on the phone, and the polls left before the
    background script ends, if one is running. *)
Record phone_state : Type := {
  installed : list string;
  running : option nat
}.

Definition on_phone (p : string) : string := "/data/local/tmp/bin/" +:+ p.

Definition phone : Devlib.Target phone_state nat string string :=
  {| Devlib.busybox := fun _ => "/data/local/tmp/bin/busybox";
     Devlib.install := fun fs p d =>
       match fs !! p with
       | Some _ =>
           (inr (on_phone p),
            {| installed := on_phone p :: installed d; running := running d |})
       | None => (inl "HostError", d)
       end;
     Devlib.file_exists := fun p d => (inr (bool_decide (p ∈ installed d)), d);
     Devlib.execute := fun p _ _ d =>
       if bool_decide (p ∈ installed d) then (inr tt, d)
       else (inl "TargetStableError", d);
     Devlib.background := fun p _ d =>
       (inr 1%nat, {| installed := installed d; running := Some 2%nat |});
     Devlib.check_responsive := fun _ d => (inr tt, d);
     Devlib.kill := fun _ _ d =>
       (inr tt, {| installed := installed d; running := None |});
     Devlib.getattr := fun name d => (inr ("stub " +:+ name), d);
     Devlib.poll := fun _ d =>
       match running d with
       | Some (S n) =>
           (inr None, {| installed := installed d; running := Some n |})
       | Some O => (inr (Some 0), d)
       | None => (inr (Some (-9)), d)
       end;
     Devlib.proc_kill := fun _ d =>
       (inr tt, {| installed := installed d; running := None |}) |}.

(** A phone on which every path is reported to exist. *)
Definition credulous : Devlib.Target phone_state nat string string :=
  {| Devlib.busybox := Devlib.busybox phone;
     Devlib.install := Devlib.install phone;
     Devlib.file_exists := fun _ d => (inr true, d);
     Devlib.execute := fun _ _ _ d => (inr tt, d);
     Devlib.background := Devlib.background phone;
     Devlib.check_responsive := Devlib.check_responsive phone;
     Devlib.kill := Devlib.kill phone;
     Devlib.getattr := Devlib.getattr phone;
     Devlib.poll := Devlib.poll phone;
     Devlib.proc_kill := Devlib.proc_kill phone |}.

(** A phone on which the remote [kill] command fails, as it does when
    [pgrep] finds no process. *)
Definition no_such_process : Devlib.Target phone_state nat string string :=
  {| Devlib.busybox := Devlib.busybox phone;
     Devlib.install := Devlib.install phone;
     Devlib.file_exists := Devlib.file_exists phone;
     Devlib.execute := Devlib.execute phone;
     Devlib.background := Devlib.background phone;
     Devlib.check_responsive := Devlib.check_responsive phone;
     Devlib.kill := fun _ _ d => (inl "TargetStableError", d);
     Devlib.getattr := Devlib.getattr phone;
     Devlib.poll := Devlib.poll phone;
     Devlib.proc_kill := Devlib.proc_kill phone |}.

(** A phone that refuses every upload. *)
Definition read_only : Devlib.Target phone_state nat string string :=
  {| Devlib.busybox := Devlib.busybox phone;
     Devlib.install := fun _ _ d => (inl "TargetStableError", d);
     Devlib.file_exists := Devlib.file_exists phone;
     Devlib.execute := Devlib.execute phone;
     Devlib.background := Devlib.background phone;
     Devlib.check_responsive := Devlib.check_responsive phone;
     Devlib.kill := Devlib.kill phone;
     Devlib.getattr := Devlib.getattr phone;
     Devlib.poll := Devlib.poll phone;
     Devlib.proc_kill := Devlib.proc_kill phone |}.

(** A phone that no longer answers. *)
Definition unreachable : Devlib.Target phone_state nat string string :=
  {| Devlib.busybox := Devlib.busybox phone;
     Devlib.install := Devlib.install phone;
     Devlib.file_exists := fun _ d => (inl "TargetNotRespondingError", d);
     Devlib.execute := fun _ _ _ d => (inl "TargetNotRespondingError", d);
     Devlib.background := Devlib.background phone;
     Devlib.check_responsive := fun _ d => (inl "TargetNotRespondingError", d);
     Devlib.kill := Devlib.kill phone;
     Devlib.getattr := Devlib.getattr phone;
     Devlib.poll := Devlib.poll phone;
     Devlib.proc_kill := Devlib.proc_kill phone |}.

Definition laptop : Devlib.Host string :=
  {| Devlib.open_w := fun _ _ => None;
     Devlib.object_attr := fun name =>
       bool_decide (name ∈ ["__class__"; "__dict__"; "__doc__"; "__module__";
                            "__repr__"; "__str__"; "__hash__"; "__eq__"]) |}.

Definition boot : World phone_state nat :=
  {| files := ∅;
     device := {| installed := []; running := None |};
     log := [] |}.

(** A script just constructed with the default arguments. *)
Definition script0 : State phone_state nat :=
  constructed "remote_script.sh" "./" boot.

(** The scenario of the specification: two commands appended. *)
Definition hello : list string := ["echo hello"; "touch /tmp/x"].

End Stub.

(** ** Properties *)

Section Properties.
Context {T P V E : Type}.
Context (target : Devlib.Target T P V E) (host : Devlib.Host E).

Abbreviation State := (State T P).
Abbreviation outcome := (outcome E).
Abbreviation M := (@M T P E).
Abbreviation append := (@append T P E).
Abbreviation execute := (@execute T P E).
Abbreviation session := (session target host).
Abbreviation push := (push target host).
Abbreviation run := (run target).
Abbreviation background := (background target).
Abbreviation wait := (wait target).
Abbreviation kill := (kill target).
Abbreviation read_attr := (read_attr target host).

Lemma call_eq {A} (ev : event P) (f : Devlib.op A) (st : State) :
  call ev f st =
  (answer (E:=E) (f (device (world st))).1,
   {| self := self st;
      world := {| files := files (world st);
                  device := (f (device (world st))).2;
                  log := log (world st) ++ [ev] |} |}).
Proof.
  unfold call, emit, bind, get_world, put_world, ret, raise; simpl.
  destruct (f (device (world st))) as [[e|a] d]; reflexivity.
Qed.

Lemma write_file_eq (path text : string) (st : State) :
  write_file host path text st =
  match Devlib.open_w host path (files (world st)) with
  | Some e =>
      (Raise (Foreign e),
       {| self := self st;
          world := {| files := files (world st); device := device (world st);
                      log := log (world st) ++ [EOpenWrite path text] |} |})
  | None =>
      (Ret tt,
       {| self := self st;
          world := {| files := <[path := text]> (files (world st));
                      device := device (world st);
                      log := log (world st) ++ [EOpenWrite path text] |} |})
  end.
Proof.
  unfold write_file, emit, bind, get_world, put_world, raise; simpl.
  destruct (Devlib.open_w host path (files (world st))); reflexivity.
Qed.

Lemma append_eq (cmd : string) (st : State) :
  append cmd st =
  (Ret tt,
   {| self := {| script_name := script_name (self st);
                 local_path := local_path (self st);
                 remote_path := remote_path (self st);
                 commands := commands (self st) ++ [cmd];
                 _proc := _proc (self st) |};
      world := world st |}).
Proof. reflexivity. Qed.

Lemma session_cons (c : method_call) (cs : list method_call) (st : State) :
  session (c :: cs) st =
  match (invoke target host c st).1 with
  | Diverge => ([(c, Diverge)], (invoke target host c st).2)
  | o => ((c, o) :: (session cs (invoke target host c st).2).1,
          (session cs (invoke target host c st).2).2)
  end.
Proof.
  cbn [session].
  destruct (invoke target host c st) as [[v|e|] st']; cbn [fst snd]; try done;
    by destruct (session cs st').
Qed.

Lemma session_appends (cmds : list string) (st : State) :
  (session (CAppend <$> cmds) st).2 =
  {| self := {| script_name := script_name (self st);
                local_path := local_path (self st);
                remote_path := remote_path (self st);
                commands := commands (self st) ++ cmds;
                _proc := _proc (self st) |};
     world := world st |}.
Proof.
  revert st. induction cmds as [|c cmds IH]; intros [[n lp rp cs p] w]; simpl.
  - by rewrite app_nil_r.
  - specialize (IH {| self := {| script_name := n; local_path := lp; remote_path := rp; commands := cs ++ [c]; _proc := p |}; world := w |}).
    unfold fmap in IH. destruct (session _ _) as [h st'']. simpl in *.
    by rewrite IH, <- app_assoc.
Qed.

Lemma push_eq (st : State) :
  push st =
  let s := self st in
  let w := world st in
  let text := script_text (Devlib.busybox target (device w)) (commands s) in
  let wrote := EOpenWrite (local_path s) text in
  match Devlib.open_w host (local_path s) (files w) with
  | Some e =>
      (Raise (Foreign e),
       {| self := s;
          world := {| files := files w; device := device w;
                      log := log w ++ [wrote] |} |})
  | None =>
      let fs := <[local_path s := text]> (files w) in
      let r := Devlib.install target fs (local_path s) (device w) in
      let w' := {| files := fs; device := r.2;
                   log := (log w ++ [wrote]) ++ [EInstall (local_path s)] |} in
      match r.1 with
      | inl e => (Raise (Foreign e), {| self := s; world := w' |})
      | inr rp =>
          (Ret tt,
           {| self := {| script_name := script_name s;
                         local_path := local_path s;
                         remote_path := rp;
                         commands := commands s;
                         _proc := _proc s |};
              world := w' |})
      end
  end.
Proof.
  unfold push. unfold bind at 1 2 3. simpl. rewrite write_file_eq.
  destruct (Devlib.open_w host _ _); [reflexivity|].
  unfold bind, get_self, get_world. simpl. rewrite call_eq. simpl.
  destruct (Devlib.install _ _ _ _) as [[e|rp] d]; reflexivity.
Qed.

(** C1. Whatever the state, after the commands [cmds] have been appended
    with [append], [push] hands to [open(local_path, 'w')] exactly the
    newline-join of the shebang line naming the target's busybox,
    [set -e], the commands accumulated so far followed by [cmds] in the
    order given, and [set +e]; that is the only file it writes, and once
    the file could be opened it holds that text. *)
Theorem push_writes_appended_commands (st : State) (cmds : list string) :
  let st1 := (session (CAppend <$> cmds) st).2 in
  let path := local_path (self st) in
  let text :=
    Py.join Py.nl
      (["#!" +:+ Devlib.busybox target (device (world st)) +:+ " sh"; "set -e"]
       ++ (commands (self st) ++ cmds) ++ ["set +e"]) in
  let st2 := (push st1).2 in
  (∃ rest, log (world st2) = log (world st) ++ EOpenWrite path text :: rest
           ∧ ∀ p t, EOpenWrite p t ∉ rest)
  ∧ (Devlib.open_w host path (files (world st)) = None →
     files (world st2) !! path = Some text).
Proof.
  intros st1 path text st2. subst st1 st2.
  rewrite session_appends, push_eq. simpl.
  fold path. change (script_text _ _) with text.
  destruct (Devlib.open_w host path (files (world st))) as [e|] eqn:Hopen; simpl.
  - split; [|discriminate]. exists []. split; [done|]. intros p t H. by apply elem_of_nil in H.
  - destruct (Devlib.install _ _ _ _) as [[e|rp] d]; simpl;
      (split; [ exists [EInstall path]; split; [by rewrite <- app_assoc|]
              | intros _; apply lookup_insert_eq ]);
      intros p t H; apply list_elem_of_singleton in H; discriminate.
Qed.

(** C9. [execute] is [append]: on every command and state both return
    [None] and leave the state in which the command has been added at
    the end of [commands] and nothing else has changed; a caller's
    sequence of calls ends in the same state whichever of the two it
    uses. *)
Theorem execute_is_append (cmd : string) (st : State) :
  execute cmd st = append cmd st
  ∧ execute cmd st =
    (Ret tt,
     {| self := {| script_name := script_name (self st);
                   local_path := local_path (self st);
                   remote_path := remote_path (self st);
                   commands := commands (self st) ++ [cmd];
                   _proc := _proc (self st) |};
        world := world st |})
  ∧ invoke target host (CExecute cmd) st = invoke target host (CAppend cmd) st
  ∧ ∀ cs cs' : list method_call,
      (session (cs ++ CExecute cmd :: cs') st).2
      = (session (cs ++ CAppend cmd :: cs') st).2.
Proof.
  split; [reflexivity|]. split; [apply append_eq|]. split; [reflexivity|].
  intros cs cs'. revert st. induction cs as [|c cs IH]; intros st.
  - cbn [app]. rewrite !session_cons.
    change (invoke target host (CExecute cmd) st)
      with (invoke target host (CAppend cmd) st).
    by destruct (invoke target host (CAppend cmd) st).1.
  - cbn [app]. rewrite !session_cons.
    destruct (invoke target host c st).1; cbn [snd]; by rewrite ?IH.
Qed.

(** C10. When the file could be written and [install] raises, [push]
    raises what [install] raised and leaves every attribute of the
    object as it was, [remote_path] and [commands] in particular. *)
Theorem push_install_failure_keeps_state (st : State) (e : E) (d : T) :
  let s := self st in
  let text := script_text (Devlib.busybox target (device (world st))) (commands s) in
  Devlib.open_w host (local_path s) (files (world st)) = None →
  Devlib.install target (<[local_path s := text]> (files (world st)))
    (local_path s) (device (world st)) = (inl e, d) →
  (push st).1 = Raise (Foreign e)
  ∧ self (push st).2 = s
  ∧ remote_path (self (push st).2) = remote_path s
  ∧ commands (self (push st).2) = commands s
  ∧ files (world (push st).2) !! local_path s = Some text.
Proof.
  intros s text Hopen Hinstall. subst s text.
  rewrite push_eq. cbv zeta. rewrite Hopen, Hinstall. cbn [fst snd self world files].
  repeat split; try reflexivity. apply lookup_insert_eq.
Qed.

(** C8. Two calls of [push] made with the same accumulated commands, the
    same local path and a target naming the same busybox leave the same
    content in the local file, whenever both return. *)
Theorem push_twice_same_content (st st' : State) :
  commands (self st) = commands (self st') →
  local_path (self st) = local_path (self st') →
  Devlib.busybox target (device (world st)) =
    Devlib.busybox target (device (world st')) →
  returned (push st).1 = true →
  returned (push st').1 = true →
  ∃ text,
    files (world (push st).2) !! local_path (self st) = Some text
    ∧ files (world (push st').2) !! local_path (self st') = Some text
    ∧ EOpenWrite (local_path (self st)) text ∈ log (world (push st).2)
    ∧ EOpenWrite (local_path (self st')) text ∈ log (world (push st').2).
Proof.
  intros Hcmds Hpath Hbb. rewrite !push_eq. cbv zeta.
  rewrite <- Hcmds, <- Hpath, <- Hbb.
  set (text := script_text _ _). intros Hret Hret'. exists text.
  destruct (Devlib.open_w host _ (files (world st))); [discriminate|].
  destruct (Devlib.open_w host _ (files (world st'))); [discriminate|].
  destruct (Devlib.install _ _ _ (device (world st))) as [[?|?] ?];
    [discriminate|].
  destruct (Devlib.install _ _ _ (device (world st'))) as [[?|?] ?];
    [discriminate|].
  cbn [fst snd self world files log].
  split; [apply lookup_insert_eq|]. split; [apply lookup_insert_eq|].
  split; rewrite !elem_of_app, !list_elem_of_singleton; auto.
Qed.

(** *** Methods that assign no attribute *)

Lemma keeps_ret {A} (a : A) : keeps_self (E:=E) (T:=T) (P:=P) (ret a).
Proof. by intros st. Qed.

Lemma keeps_raise {A} (e : exn E) : keeps_self (T:=T) (P:=P) (A:=A) (raise e).
Proof. by intros st. Qed.

Lemma keeps_bind {A B} (m : M A) (k : A → M B) :
  keeps_self m → (∀ a, keeps_self (k a)) → keeps_self (bind m k).
Proof.
  intros Hm Hk st. unfold bind. specialize (Hm st).
  destruct (m st) as [[a|e|] st'] eqn:Hst; simpl in *; try done.
  by rewrite Hk.
Qed.

Lemma keeps_get_self : keeps_self (E:=E) (get_self (T:=T) (P:=P)).
Proof. by intros st. Qed.

Lemma keeps_call {A} (ev : event P) (f : Devlib.op A) :
  keeps_self (call (T:=T) (E:=E) ev f).
Proof. intros st. by rewrite call_eq. Qed.

Lemma keeps_sleep (seconds : Z) : keeps_self (E:=E) (sleep (T:=T) (P:=P) seconds).
Proof. intros st. unfold sleep. by destruct (seconds <? 0). Qed.

Lemma keeps_the_proc (method : string) :
  keeps_self (E:=E) (the_proc (T:=T) (P:=P) method).
Proof. intros st. unfold the_proc, bind, get_self; simpl. by destruct (_proc _). Qed.

Lemma keeps_prerun_check : keeps_self (_prerun_check target).
Proof.
  unfold _prerun_check. apply keeps_bind; [apply keeps_get_self|]. intros s.
  apply keeps_bind; [apply keeps_call|]. intros [|]; simpl;
    [apply keeps_ret | apply keeps_raise].
Qed.

Lemma keeps_run (as_root : bool) (timeout : option Z) :
  keeps_self (run as_root timeout).
Proof.
  apply keeps_bind; [apply keeps_prerun_check|]. intros _.
  apply keeps_bind; [apply keeps_get_self|]. intros s. apply keeps_call.
Qed.

Lemma keeps_wait_loop (fuel : nat) (poll_sleep_s : Z) :
  keeps_self (wait_loop target fuel poll_sleep_s).
Proof.
  induction fuel as [|fuel IH]; [by intros st|].
  cbn [wait_loop]. apply keeps_bind; [apply keeps_the_proc|]. intros p.
  apply keeps_bind; [apply keeps_call|]. intros [code|]; [apply keeps_ret|].
  apply keeps_bind; [apply keeps_call|]. intros _.
  apply keeps_bind; [apply keeps_sleep|]. intros _. apply IH.
Qed.

Lemma keeps_wait (poll_sleep_s : Z) (fuel : nat) :
  keeps_self (wait poll_sleep_s fuel).
Proof.
  intros st. unfold wait, bind, get_self; simpl.
  destruct (_proc (self st)); [apply keeps_wait_loop | done].
Qed.

Lemma keeps_kill (as_root : bool) : keeps_self (kill as_root).
Proof.
  intros st. unfold kill. unfold bind at 1. unfold get_self; simpl.
  destruct (_proc (self st)); [|done].
  cbv beta zeta. generalize ("$(pgrep -x " +:+ script_name (self st) +:+ ")").
  intros cmd_pid. revert st. apply keeps_bind; [apply keeps_call|]. intros _.
  apply keeps_bind; [apply keeps_the_proc|]. intros q. apply keeps_call.
Qed.

Lemma keeps_object_getattribute (name : string) :
  keeps_self (object_getattribute (T:=T) (P:=P) (V:=V) host name).
Proof.
  intros st. unfold object_getattribute, bind, get_self; simpl.
  destruct (instance_attr _ _); [done|]. destruct (class_attr _); [done|].
  by destruct (Devlib.object_attr _ _).
Qed.

Lemma keeps_getattr (name : string) : keeps_self (__getattr__ target host name).
Proof.
  unfold __getattr__. destruct (_ && _); [|apply keeps_object_getattribute].
  apply keeps_bind; [apply keeps_call|]. intros v. apply keeps_ret.
Qed.

Lemma keeps_read_attr (name : string) : keeps_self (read_attr name).
Proof.
  intros st. unfold read_attr.
  pose proof (keeps_object_getattribute name st) as Hobj.
  destruct (object_getattribute _ _ _) as [[v|[]|] st']; simpl in *; try done.
  by rewrite keeps_getattr.
Qed.

(** *** The prerun check and the methods behind it *)

Lemma prerun_check_eq (st : State) :
  _prerun_check target st =
  let path := remote_path (self st) in
  let r := Devlib.file_exists target path (device (world st)) in
  (match r.1 with
   | inl e => Raise (Foreign e)
   | inr true => Ret tt
   | inr false => Raise (FileNotFoundError missing_msg)
   end,
   {| self := self st;
      world := {| files := files (world st); device := r.2;
                  log := log (world st) ++ [EFileExists path] |} |}).
Proof.
  unfold _prerun_check. unfold bind at 1. unfold get_self at 1.
  unfold bind. rewrite call_eq. cbv zeta.
  by destruct (Devlib.file_exists _ _ _) as [[e|[|]] d].
Qed.

Lemma run_eq (as_root : bool) (timeout : option Z) (st : State) :
  run as_root timeout st =
  match _prerun_check target st with
  | (Ret _, st') =>
      call (EExecute (remote_path (self st')) as_root timeout)
           (Devlib.execute target (remote_path (self st')) as_root timeout) st'
  | (Raise e, st') => (Raise e, st')
  | (Diverge, st') => (Diverge, st')
  end.
Proof.
  unfold run. unfold bind at 1.
  by destruct (_prerun_check target st) as [[[]|e|] st'].
Qed.

Lemma background_eq (as_root : bool) (st : State) :
  background as_root st =
  match _prerun_check target st with
  | (Ret _, st') =>
      let path := remote_path (self st') in
      let r := Devlib.background target path as_root (device (world st')) in
      let w := {| files := files (world st'); device := r.2;
                  log := log (world st') ++ [EBackground path as_root] |} in
      match r.1 with
      | inl e => (Raise (Foreign e), {| self := self st'; world := w |})
      | inr p =>
          (Ret (Some p),
           {| self := {| script_name := script_name (self st');
                         local_path := local_path (self st');
                         remote_path := remote_path (self st');
                         commands := commands (self st');
                         _proc := Some p |};
              world := w |})
      end
  | (Raise e, st') => (Raise e, st')
  | (Diverge, st') => (Diverge, st')
  end.
Proof.
  unfold background. unfold bind at 1.
  destruct (_prerun_check target st) as [[[]|e|] st']; try done.
  unfold bind at 1. unfold get_self at 1. unfold bind at 1.
  rewrite call_eq. cbv zeta.
  by destruct (Devlib.background _ _ _ _) as [[e|p] d].
Qed.

Lemma kill_eq (as_root : bool) (st : State) :
  kill as_root st =
  match _proc (self st) with
  | None => (Raise (RuntimeError no_background_msg), st)
  | Some p =>
      let cmd_pid := "$(pgrep -x " +:+ script_name (self st) +:+ ")" in
      let r := Devlib.kill target cmd_pid as_root (device (world st)) in
      let w := {| files := files (world st); device := r.2;
                  log := log (world st) ++ [EKill cmd_pid as_root] |} in
      match r.1 with
      | inl e => (Raise (Foreign e), {| self := self st; world := w |})
      | inr _ =>
          let r' := Devlib.proc_kill target p r.2 in
          (answer r'.1,
           {| self := self st;
              world := {| files := files (world st); device := r'.2;
                          log := (log (world st) ++ [EKill cmd_pid as_root])
                                 ++ [EProcKill p] |} |})
      end
  end.
Proof.
  unfold kill. unfold bind at 1. unfold get_self at 1.
  destruct (_proc (self st)) as [p|] eqn:Hp; [|done].
  unfold bind at 1. rewrite call_eq. cbv zeta.
  destruct (Devlib.kill _ _ _ _) as [[e|[]] d]; [done|].
  cbn [fst snd answer]. unfold the_proc, get_self, bind; cbn [fst snd self].
  rewrite Hp. unfold ret. by rewrite call_eq.
Qed.

Lemma wait_untracked (poll_sleep_s : Z) (fuel : nat) (st : State) :
  _proc (self st) = None →
  wait poll_sleep_s fuel st = (Raise (RuntimeError no_background_msg), st).
Proof. intros Hp. unfold wait, bind, get_self; simpl. by rewrite Hp. Qed.

Lemma kill_untracked (as_root : bool) (st : State) :
  _proc (self st) = None →
  kill as_root st = (Raise (RuntimeError no_background_msg), st).
Proof. intros Hp. by rewrite kill_eq, Hp. Qed.

(** *** What a call may change in the object *)

Lemma push_same_proc (st : State) : _proc (self (push st).2) = _proc (self st).
Proof.
  rewrite push_eq. cbv zeta. destruct (Devlib.open_w _ _ _); [done|].
  by destruct (Devlib.install _ _ _ _) as [[e|rp] d].
Qed.

Lemma push_failure_keeps_self (st : State) :
  returned (push st).1 = false → self (push st).2 = self st.
Proof.
  rewrite push_eq. cbv zeta. destruct (Devlib.open_w _ _ _); [done|].
  by destruct (Devlib.install _ _ _ _) as [[e|rp] d].
Qed.

Lemma background_same_remote_path (as_root : bool) (st : State) :
  remote_path (self (background as_root st).2) = remote_path (self st).
Proof.
  rewrite background_eq. pose proof (keeps_prerun_check st) as Hpre.
  destruct (_prerun_check target st) as [[[]|e|] st']; simpl in *;
    try by rewrite Hpre.
  destruct (Devlib.background _ _ _ _) as [[e|p] d]; simpl; by rewrite Hpre.
Qed.

Lemma invoke_same_proc (c : method_call) (st : State) :
  (∀ as_root, c ≠ CBackground as_root) →
  _proc (self (invoke target host c st).2) = _proc (self st).
Proof.
  intros Hc.
  assert (Hseq : ∀ (m : M unit) (v : pyval P V),
    _proc (self (m st).2) = _proc (self st) →
    _proc (self (bind m (λ _, ret v) st).2) = _proc (self st)).
  { intros m v Hm. unfold bind. by destruct (m st) as [[[]|e|] st']. }
  destruct c; cbn [invoke]; try (apply Hseq).
  - done.
  - done.
  - apply push_same_proc.
  - by rewrite keeps_run.
  - by destruct (Hc as_root).
  - by rewrite keeps_wait.
  - by rewrite keeps_kill.
  - by rewrite keeps_read_attr.
Qed.

Lemma invoke_same_remote_path (c : method_call) (st : State) :
  c ≠ CPush ∨ returned (invoke target host c st).1 = false →
  remote_path (self (invoke target host c st).2) = remote_path (self st).
Proof.
  assert (Hseq : ∀ (m : M unit) (v : pyval P V),
    remote_path (self (m st).2) = remote_path (self st) →
    remote_path (self (bind m (λ _, ret v) st).2) = remote_path (self st)).
  { intros m v Hm. unfold bind. by destruct (m st) as [[[]|e|] st']. }
  destruct c; cbn [invoke]; intros Hc; try (apply Hseq).
  - done.
  - done.
  - destruct Hc as [Hc|Hc]; [done|]. unfold bind in *.
    pose proof (push_failure_keeps_self st) as Hpush.
    destruct (push st) as [[[]|e|] st']; simpl in *; try done;
      by rewrite Hpush.
  - by rewrite keeps_run.
  - unfold bind. pose proof (background_same_remote_path as_root st) as Hbg.
    by destruct (background as_root st) as [[p|e|] st'].
  - by rewrite keeps_wait.
  - by rewrite keeps_kill.
  - by rewrite keeps_read_attr.
Qed.

(** *** What a sequence of calls may change in the object *)

Lemma session_same_proc (cs : list method_call) (st : State) :
  no_background cs → _proc (self (session cs st).2) = _proc (self st).
Proof.
  revert st. induction cs as [|c cs IH]; intros st Hcs; [done|].
  assert (Hc : ∀ as_root, c ≠ CBackground as_root).
  { intros as_root ->. apply (Hcs as_root). left. }
  assert (Hrest : no_background cs).
  { intros as_root Hin. apply (Hcs as_root). by right. }
  rewrite session_cons. pose proof (invoke_same_proc c st Hc) as Hinv.
  destruct (invoke target host c st) as [[v|e|] st']; cbn [fst snd] in *;
    try done; by rewrite IH.
Qed.

Lemma session_same_remote_path (cs : list method_call) (st : State) :
  never_pushed (session cs st).1 →
  remote_path (self (session cs st).2) = remote_path (self st).
Proof.
  revert st. induction cs as [|c cs IH]; intros st; [done|].
  rewrite session_cons. pose proof (invoke_same_remote_path c st) as Hinv.
  destruct (invoke target host c st) as [[v|e|] st']; cbn [fst snd] in *;
    intros Hh.
  - rewrite IH.
    + apply Hinv. left. intros ->.
      by specialize (Hh (Ret v) ltac:(left)).
    + intros o Ho. apply Hh. by right.
  - rewrite IH; [apply Hinv; by right|].
    intros o Ho. apply Hh. by right.
  - apply Hinv. by right.
Qed.

(** C6. On a script constructed and then used through any sequence of
    calls among which there is no [background], [wait] and [kill] raise
    [RuntimeError('No background process currently executing')], and do
    nothing else. *)
Theorem wait_kill_without_background
    (name dir : string) (w : World T P) (cs : list method_call) :
  no_background cs →
  let st := (session cs (constructed name dir w)).2 in
  ∀ (poll_sleep_s : Z) (fuel : nat) (as_root : bool),
    wait poll_sleep_s fuel st = (Raise (RuntimeError no_background_msg), st)
    ∧ kill as_root st = (Raise (RuntimeError no_background_msg), st).
Proof.
  intros Hcs st poll_sleep_s fuel as_root.
  assert (Hp : _proc (self st) = None).
  { subst st. by rewrite session_same_proc. }
  split; [by apply wait_untracked | by apply kill_untracked].
Qed.

(** C3, as the code has it.  On a script constructed and then used
    through any sequence of calls in which no [push] returned,
    [remote_path] is still the empty string, and [run] and [background]
    raise [FileNotFoundError] whenever the target's [file_exists] answers
    false for the empty path. *)
Theorem run_without_push
    (name dir : string) (w : World T P) (cs : list method_call) :
  let r := session cs (constructed name dir w) in
  never_pushed r.1 →
  remote_path (self r.2) = ""
  ∧ ∀ (as_root : bool) (timeout : option Z),
      (Devlib.file_exists target "" (device (world r.2))).1 = inr false →
      (run as_root timeout r.2).1 = Raise (FileNotFoundError missing_msg)
      ∧ (background as_root r.2).1 = Raise (FileNotFoundError missing_msg).
Proof.
  intros r Hr.
  assert (Hpath : remote_path (self r.2) = "").
  { subst r. by rewrite session_same_remote_path. }
  split; [done|]. intros as_root timeout Hfe.
  rewrite run_eq, background_eq, prerun_check_eq. cbv zeta.
  by rewrite Hpath, Hfe.
Qed.

(** C5. If the target reports as existing every path that its [install]
    has just returned, then after a [push] that returned, the prerun
    check passes, and neither [run] nor [background] raises
    [FileNotFoundError]. *)
Theorem run_after_push (st : State) :
  (∀ fs path d remote d',
     Devlib.install target fs path d = (inr remote, d') →
     (Devlib.file_exists target remote d').1 = inr true) →
  returned (push st).1 = true →
  (_prerun_check target (push st).2).1 = Ret tt
  ∧ ∀ (as_root : bool) (timeout : option Z) (msg : string),
      (run as_root timeout (push st).2).1 ≠ Raise (FileNotFoundError msg)
      ∧ (background as_root (push st).2).1 ≠ Raise (FileNotFoundError msg).
Proof.
  intros Hconsistent Hpush.
  assert (Hpre : (_prerun_check target (push st).2).1 = Ret tt).
  { revert Hpush. rewrite push_eq. cbv zeta.
    destruct (Devlib.open_w _ _ _); [done|].
    destruct (Devlib.install _ _ _ _) as [[e|remote] d] eqn:Hinstall; [done|].
    intros _. rewrite prerun_check_eq. cbn [fst snd self world device remote_path].
    by rewrite (Hconsistent _ _ _ _ _ Hinstall). }
  split; [done|]. intros as_root timeout msg.
  rewrite run_eq, background_eq.
  destruct (_prerun_check target (push st).2) as [o st'].
  cbn [fst] in Hpre. subst o. rewrite call_eq. cbv zeta. split.
  - by destruct (Devlib.execute _ _ _ _ _).1.
  - by destruct (Devlib.background _ _ _ _).1.
Qed.

(** *** Once a handle is tracked *)

Lemma wait_loop_never_untracked (fuel : nat) (poll_sleep_s : Z) (st : State) :
  is_Some (_proc (self st)) →
  ∀ msg, (wait_loop target fuel poll_sleep_s st).1 ≠ Raise (RuntimeError msg).
Proof.
  revert st. induction fuel as [|fuel IH]; intros st [p Hp] msg; [done|].
  cbn [wait_loop]. unfold bind at 1. unfold the_proc, get_self, bind at 1.
  cbn [fst snd]. rewrite Hp. unfold ret, bind at 1. rewrite call_eq.
  destruct (Devlib.poll _ _ _) as [[e|[code|]] d]; cbn [fst snd answer]; try done.
  unfold bind at 1. rewrite call_eq.
  destruct (Devlib.check_responsive _ _ _) as [[e|[]] d'];
    cbn [fst snd answer]; try done.
  unfold bind at 1, sleep. destruct (poll_sleep_s <? 0); [done|].
  apply IH. by exists p.
Qed.

Lemma tracked_never_untracked (st : State) :
  is_Some (_proc (self st)) →
  ∀ (poll_sleep_s : Z) (fuel : nat) (as_root : bool) (msg : string),
    (wait poll_sleep_s fuel st).1 ≠ Raise (RuntimeError msg)
    ∧ (kill as_root st).1 ≠ Raise (RuntimeError msg).
Proof.
  intros [p Hp] poll_sleep_s fuel as_root msg. split.
  - unfold wait, bind, get_self. cbn [fst snd]. rewrite Hp.
    apply wait_loop_never_untracked. by exists p.
  - rewrite kill_eq, Hp. cbv zeta.
    destruct (Devlib.kill _ _ _ _).1 as [e|[]]; [done|].
    by destruct (Devlib.proc_kill _ _ _).1.
Qed.

(** C2, as the code has it.  No method resets [_proc]: after a
    [background] that returned handle [p], [_proc] is [p], and it still
    is after any further calls other than [background], [kill] and
    [wait] included; there neither [wait] nor [kill] raises
    [RuntimeError]. *)
Theorem kill_keeps_handle (st : State) (as_root : bool) (p : P) :
  (background as_root st).1 = Ret (Some p) →
  let st1 := (background as_root st).2 in
  _proc (self st1) = Some p
  ∧ _proc (self (kill as_root st1).2) = Some p
  ∧ ∀ cs, no_background cs →
      let st2 := (session cs st1).2 in
      _proc (self st2) = Some p
      ∧ ∀ (poll_sleep_s : Z) (fuel : nat) (as_root' : bool) (msg : string),
          (wait poll_sleep_s fuel st2).1 ≠ Raise (RuntimeError msg)
          ∧ (kill as_root' st2).1 ≠ Raise (RuntimeError msg).
Proof.
  intros Hbg st1.
  assert (Hp : _proc (self st1) = Some p).
  { subst st1. revert Hbg. rewrite background_eq.
    destruct (_prerun_check target st) as [[[]|e|] st']; try done. cbv zeta.
    destruct (Devlib.background _ _ _ _) as [[e|q] d]; [done|].
    cbn [fst snd self _proc]. congruence. }
  split; [done|]. split; [by rewrite keeps_kill|].
  intros cs Hcs st2.
  assert (Hp2 : _proc (self st2) = Some p).
  { subst st2. by rewrite session_same_proc. }
  split; [done|]. apply tracked_never_untracked. by exists p.
Qed.

(** C7, as the code has it.  With handle [p] tracked, [kill] makes one
    call to the target's [kill], on [$(pgrep -x <script_name>)]; when
    that call returns it then calls [p.kill()], once, and when it raises
    [kill] raises the same without a call to [p.kill()]. *)
Theorem kill_termination_calls (st : State) (p : P) (as_root : bool) :
  _proc (self st) = Some p →
  let cmd_pid := "$(pgrep -x " +:+ script_name (self st) +:+ ")" in
  let remote := Devlib.kill target cmd_pid as_root (device (world st)) in
  let after := kill as_root st in
  match remote.1 with
  | inr _ =>
      log (world after.2) =
        log (world st) ++ [EKill cmd_pid as_root; EProcKill p]
      ∧ after.1 = answer (Devlib.proc_kill target p remote.2).1
  | inl e =>
      log (world after.2) = log (world st) ++ [EKill cmd_pid as_root]
      ∧ after.1 = Raise (Foreign e)
  end.
Proof.
  intros Hp cmd_pid remote after. subst after. rewrite kill_eq, Hp. cbv zeta.
  fold cmd_pid. fold remote. destruct remote.1 as [e|[]]; cbn [fst snd world log].
  - done.
  - by rewrite <- app_assoc.
Qed.

(** *** The attribute proxy *)

Lemma object_getattribute_state (name : string) (st : State) :
  (object_getattribute (V:=V) host name st).2 = st.
Proof.
  unfold object_getattribute, bind, get_self; cbn [fst snd].
  destruct (instance_attr _ _); [done|]. destruct (class_attr _); [done|].
  by destruct (Devlib.object_attr _ _).
Qed.

Lemma target_attrs_not_dunder (name : string) :
  name ∈ _target_attrs →
  Py.startswith "__" name && Py.endswith "__" name = false.
Proof.
  unfold _target_attrs. intros Hin.
  repeat (apply elem_of_cons in Hin as [->|Hin]; [reflexivity|]).
  by apply elem_of_nil in Hin.
Qed.

Lemma read_attr_fallback (name : string) (st : State) :
  (object_getattribute (V:=V) host name st).1 = Raise (AttributeError name) →
  read_attr name st = __getattr__ target host name st.
Proof.
  intros Hobj. unfold read_attr.
  pose proof (object_getattribute_state name st) as Hst.
  destruct (object_getattribute host name st) as [o st'].
  cbn [fst snd] in *. by subst.
Qed.

(** C4. Reading a name of [_target_attrs] that the normal resolution
    does not find is one [getattr] on the target, whose value or
    exception is handed back as it is; reading a name outside the list
    that the normal resolution does not find raises [AttributeError] and
    calls nothing; and for a name that starts and ends with two
    underscores [__getattr__] is the normal resolution, which makes no
    call to the target. *)
Theorem attribute_proxy (name : string) (st : State) :
  (name ∈ _target_attrs →
   (object_getattribute (V:=V) host name st).1 = Raise (AttributeError name) →
   let r := Devlib.getattr target name (device (world st)) in
   (read_attr name st).1 =
     match r.1 with inr v => Ret (VRemote v) | inl e => Raise (Foreign e) end
   ∧ log (world (read_attr name st).2) = log (world st) ++ [EGetattr name])
  ∧ (name ∉ _target_attrs →
     (object_getattribute (V:=V) host name st).1 = Raise (AttributeError name) →
     read_attr name st = (Raise (AttributeError name), st))
  ∧ (Py.startswith "__" name && Py.endswith "__" name = true →
     __getattr__ target host name st = object_getattribute host name st
     ∧ log (world (__getattr__ target host name st).2) = log (world st)
     ∧ log (world (read_attr name st).2) = log (world st)).
Proof.
  split; [|split].
  - intros Hin Hobj r. rewrite read_attr_fallback by done.
    unfold __getattr__. rewrite target_attrs_not_dunder by done.
    rewrite bool_decide_eq_true_2 by done. cbn [negb andb].
    unfold bind. rewrite call_eq. fold r.
    by destruct r.1 as [e|v].
  - intros Hout Hobj. rewrite read_attr_fallback by done.
    unfold __getattr__. rewrite (bool_decide_eq_false_2 _ Hout).
    rewrite andb_false_r.
    pose proof (object_getattribute_state name st) as Hst.
    destruct (object_getattribute host name st) as [o st'].
    cbn [fst snd] in *. by subst.
  - intros Hdunder.
    assert (Hget : __getattr__ target host name st
                   = object_getattribute host name st).
    { unfold __getattr__. by rewrite Hdunder. }
    split; [done|]. split.
    + by rewrite Hget, object_getattribute_state.
    + unfold read_attr.
      pose proof (object_getattribute_state name st) as Hst.
      destruct (object_getattribute host name st) as [[v|[]|] st'] eqn:Hobj;
        cbn [fst snd] in *; subst st'; try done.
      by rewrite Hget.
Qed.

(** ** Further properties of the methods *)

(** *** [run] and [background] *)

(** The calls [run] makes: it asks the target whether [remote_path]
    exists and, only when the answer is true, executes that path once,
    with the [as_root] and [timeout] it was given; its result is then
    the target's.  [run] assigns no attribute and writes no file. *)
Theorem run_calls (as_root : bool) (timeout : option Z) (st : State) :
  let path := remote_path (self st) in
  let found := Devlib.file_exists target path (device (world st)) in
  let after := run as_root timeout st in
  self after.2 = self st
  ∧ files (world after.2) = files (world st)
  ∧ match found.1 with
    | inr true =>
        log (world after.2) =
          log (world st) ++ [EFileExists path; EExecute path as_root timeout]
        ∧ after.1 = answer (Devlib.execute target path as_root timeout found.2).1
    | inr false =>
        log (world after.2) = log (world st) ++ [EFileExists path]
        ∧ after.1 = Raise (FileNotFoundError missing_msg)
    | inl e =>
        log (world after.2) = log (world st) ++ [EFileExists path]
        ∧ after.1 = Raise (Foreign e)
    end.
Proof.
  intros path found after. subst after.
  split; [apply keeps_run|].
  rewrite run_eq, prerun_check_eq. cbv zeta. fold path. fold found.
  destruct found.1 as [e|[|]]; [done| |done].
  rewrite call_eq. cbn [fst snd self world files log device].
  by rewrite <- app_assoc.
Qed.



(** *** [wait] and [kill] *)


Lemma wait_tracked (poll_sleep_s : Z) (fuel : nat) (st : State) :
  is_Some (_proc (self st)) →
  wait poll_sleep_s fuel st = wait_loop target fuel poll_sleep_s st.
Proof. intros [p Hp]. unfold wait, bind, get_self. cbn [fst snd]. by rewrite Hp. Qed.

Lemma wait_loop_step (fuel : nat) (poll_sleep_s : Z) (st : State) (p : P) :
  _proc (self st) = Some p →
  wait_loop target (S fuel) poll_sleep_s st =
  let polled := Devlib.poll target p (device (world st)) in
  let log1 := log (world st) ++ [EPoll p] in
  match polled.1 with
  | inl e =>
      (Raise (Foreign e),
       {| self := self st;
          world := {| files := files (world st); device := polled.2;
                      log := log1 |} |})
  | inr (Some _) =>
      (Ret tt,
       {| self := self st;
          world := {| files := files (world st); device := polled.2;
                      log := log1 |} |})
  | inr None =>
      let checked := Devlib.check_responsive target true polled.2 in
      let log2 := log1 ++ [ECheckResponsive true] in
      match checked.1 with
      | inl e =>
          (Raise (Foreign e),
           {| self := self st;
              world := {| files := files (world st); device := checked.2;
                          log := log2 |} |})
      | inr _ =>
          if poll_sleep_s <? 0 then
            (Raise (ValueError "sleep length must be non-negative"),
             {| self := self st;
                world := {| files := files (world st); device := checked.2;
                            log := log2 |} |})
          else
            wait_loop target fuel poll_sleep_s
              {| self := self st;
                 world := {| files := files (world st); device := checked.2;
                             log := log2 ++ [ESleep poll_sleep_s] |} |}
      end
  end.
Proof.
  intros Hp. cbn [wait_loop]. unfold bind at 1. unfold the_proc, get_self, bind at 1.
  cbn [fst snd]. rewrite Hp. unfold ret, bind at 1. rewrite call_eq. cbv zeta.
  destruct (Devlib.poll _ _ _) as [[e|[code|]] d]; cbn [fst snd answer]; try done.
  unfold bind at 1. rewrite call_eq. cbn [self world files device log].
  destruct (Devlib.check_responsive _ _ _) as [[e|[]] d'];
    cbn [fst snd answer]; try done.
  unfold bind at 1, sleep. by destruct (poll_sleep_s <? 0).
Qed.

(** A script that has already ended: when the first poll of the tracked
    handle gives a return code, [wait] returns after that one poll,
    without probing the target and without sleeping, whatever
    [poll_sleep_s] is. *)
Theorem wait_finished_process
    (poll_sleep_s : Z) (fuel : nat) (st : State) (p : P) (code : Z) :
  _proc (self st) = Some p →
  (Devlib.poll target p (device (world st))).1 = inr (Some code) →
  wait poll_sleep_s (S fuel) st =
  (Ret tt,
   {| self := self st;
      world := {| files := files (world st);
                  device := (Devlib.poll target p (device (world st))).2;
                  log := log (world st) ++ [EPoll p] |} |}).
Proof.
  intros Hp Hpoll. rewrite wait_tracked by (by exists p).
  rewrite (wait_loop_step _ _ _ p Hp). cbv zeta. by rewrite Hpoll.
Qed.

(** A script still running: after a poll that gives no return code,
    [wait] probes the target with [explode=True]; an exception of the
    probe is raised by [wait] before any sleep, and with a negative
    [poll_sleep_s] it is [sleep] that raises [ValueError] once the probe
    has returned. *)
Theorem wait_running_process
    (poll_sleep_s : Z) (fuel : nat) (st : State) (p : P) (d : T) :
  _proc (self st) = Some p →
  Devlib.poll target p (device (world st)) = (inr None, d) →
  let probe := Devlib.check_responsive target true d in
  let after := wait poll_sleep_s (S fuel) st in
  (∀ e, probe.1 = inl e →
     after.1 = Raise (Foreign e)
     ∧ log (world after.2) =
         log (world st) ++ [EPoll p; ECheckResponsive true])
  ∧ (probe.1 = inr tt → poll_sleep_s < 0 →
     after.1 = Raise (ValueError "sleep length must be non-negative")
     ∧ log (world after.2) =
         log (world st) ++ [EPoll p; ECheckResponsive true]).
Proof.
  intros Hp Hpoll probe after. subst after.
  rewrite wait_tracked by (by exists p).
  rewrite (wait_loop_step _ _ _ p Hp). cbv zeta. rewrite Hpoll.
  cbn [fst snd]. fold probe. split.
  - intros e He. rewrite He. cbn [fst snd world log].
    by rewrite <- app_assoc.
  - intros Hprobe Hneg. rewrite Hprobe.
    apply Z.ltb_lt in Hneg. rewrite Hneg. cbn [fst snd world log].
    by rewrite <- app_assoc.
Qed.



Lemma wait_loop_log (fuel : nat) (poll_sleep_s : Z) (st : State) (p : P) :
  _proc (self st) = Some p →
  let after := wait_loop target fuel poll_sleep_s st in
  (∃ evs,
     log (world after.2) = log (world st) ++ evs
     ∧ Forall (λ ev, ev = EPoll p ∨ ev = ECheckResponsive true
                     ∨ ev = ESleep poll_sleep_s) evs)
  ∧ (after.1 = Ret tt → last (log (world after.2)) = Some (EPoll p)).
Proof.
  revert st. induction fuel as [|fuel IH]; intros st Hp after; subst after.
  { split; [|done]. exists []. by rewrite app_nil_r. }
  rewrite (wait_loop_step _ _ _ p Hp). cbv zeta.
  destruct (Devlib.poll _ _ _) as [[e|[code|]] d]; cbn [fst snd world log].
  - split; [|done]. exists [EPoll p]. split; [done|]. by repeat (apply List.Forall_cons; [auto|]).
  - split; [|intros _; apply last_snoc].
    exists [EPoll p]. split; [done|]. by repeat (apply List.Forall_cons; [auto|]).
  - destruct (Devlib.check_responsive _ _ _) as [[e|[]] d'];
      cbn [fst snd world log].
    + split; [|done]. exists [EPoll p; ECheckResponsive true].
      split; [by rewrite <- app_assoc|]. by repeat (apply List.Forall_cons; [auto|]).
    + destruct (poll_sleep_s <? 0); cbn [fst snd world log].
      * split; [|done]. exists [EPoll p; ECheckResponsive true].
        split; [by rewrite <- app_assoc|]. by repeat (apply List.Forall_cons; [auto|]).
      * set (st' := {| self := self st; world := _ |}).
        destruct (IH st' Hp) as [(evs & Hlog & Hevs) Hlast].
        split; [|exact Hlast].
        exists ([EPoll p; ECheckResponsive true; ESleep poll_sleep_s] ++ evs).
        split.
        -- rewrite Hlog. subst st'. cbn [world log].
           by rewrite <- !app_assoc.
        -- apply Forall_app. split; [by repeat (apply List.Forall_cons; [auto|]) | done].
Qed.

(** With handle [p] tracked, the only calls [wait] makes are polls of
    [p], probes of the target with [explode=True] and sleeps of
    [poll_sleep_s]; it returns only right after a poll, assigns no
    attribute and writes no file. *)
Theorem wait_calls
    (poll_sleep_s : Z) (fuel : nat) (st : State) (p : P) :
  _proc (self st) = Some p →
  let after := wait poll_sleep_s fuel st in
  self after.2 = self st
  ∧ (∃ evs,
       log (world after.2) = log (world st) ++ evs
       ∧ Forall (λ ev, ev = EPoll p ∨ ev = ECheckResponsive true
                       ∨ ev = ESleep poll_sleep_s) evs)
  ∧ (after.1 = Ret tt → last (log (world after.2)) = Some (EPoll p)).
Proof.
  intros Hp after. subst after. split; [apply keeps_wait|].
  rewrite wait_tracked by (by exists p). by apply wait_loop_log.
Qed.

(** *** The host's files *)

Lemma keeps_files_ret {A} (a : A) : keeps_files (E:=E) (T:=T) (P:=P) (ret a).
Proof. by intros st. Qed.

Lemma keeps_files_raise {A} (e : exn E) :
  keeps_files (T:=T) (P:=P) (A:=A) (raise e).
Proof. by intros st. Qed.

Lemma keeps_files_bind {A B} (m : M A) (k : A → M B) :
  keeps_files m → (∀ a, keeps_files (k a)) → keeps_files (bind m k).
Proof.
  intros Hm Hk st. unfold bind. specialize (Hm st).
  destruct (m st) as [[a|e|] st'] eqn:Hst; simpl in *; try done.
  by rewrite Hk.
Qed.

Lemma keeps_files_get_self : keeps_files (E:=E) (get_self (T:=T) (P:=P)).
Proof. by intros st. Qed.

Lemma keeps_files_call {A} (ev : event P) (f : Devlib.op A) :
  keeps_files (call (T:=T) (E:=E) ev f).
Proof. intros st. by rewrite call_eq. Qed.

Lemma keeps_files_sleep (seconds : Z) :
  keeps_files (E:=E) (sleep (T:=T) (P:=P) seconds).
Proof. intros st. unfold sleep. by destruct (seconds <? 0). Qed.

Lemma keeps_files_the_proc (method : string) :
  keeps_files (E:=E) (the_proc (T:=T) (P:=P) method).
Proof.
  intros st. unfold the_proc, bind, get_self; simpl. by destruct (_proc _).
Qed.

Lemma keeps_files_prerun_check : keeps_files (_prerun_check target).
Proof. intros st. by rewrite prerun_check_eq. Qed.

Lemma keeps_files_run (as_root : bool) (timeout : option Z) :
  keeps_files (run as_root timeout).
Proof.
  apply keeps_files_bind; [apply keeps_files_prerun_check|]. intros _.
  apply keeps_files_bind; [apply keeps_files_get_self|]. intros s.
  apply keeps_files_call.
Qed.

Lemma keeps_files_background (as_root : bool) :
  keeps_files (background as_root).
Proof.
  intros st. rewrite background_eq.
  pose proof (keeps_files_prerun_check st) as Hpre.
  destruct (_prerun_check target st) as [[[]|e|] st']; cbn [fst snd] in *;
    try done.
  cbv zeta. by destruct (Devlib.background _ _ _ _).1.
Qed.

Lemma keeps_files_wait (poll_sleep_s : Z) (fuel : nat) :
  keeps_files (wait poll_sleep_s fuel).
Proof.
  intros st. unfold wait, bind, get_self; simpl.
  destruct (_proc (self st)); [|done]. revert st.
  induction fuel as [|fuel IH]; [by intros st|].
  cbn [wait_loop]. apply keeps_files_bind; [apply keeps_files_the_proc|].
  intros q. apply keeps_files_bind; [apply keeps_files_call|].
  intros [code|]; [apply keeps_files_ret|].
  apply keeps_files_bind; [apply keeps_files_call|]. intros _.
  apply keeps_files_bind; [apply keeps_files_sleep|]. intros _. exact IH.
Qed.

Lemma keeps_files_kill (as_root : bool) : keeps_files (kill as_root).
Proof.
  intros st. rewrite kill_eq. destruct (_proc (self st)); [|done]. cbv zeta.
  by destruct (Devlib.kill _ _ _ _).1.
Qed.

Lemma keeps_files_read_attr (name : string) : keeps_files (read_attr name).
Proof.
  intros st. unfold read_attr.
  pose proof (object_getattribute_state name st) as Hst.
  destruct (object_getattribute host name st) as [[v|[]|] st'];
    cbn [fst snd] in *; subst st'; try done.
  unfold __getattr__. destruct (_ && _).
  - unfold bind. rewrite call_eq. cbn [fst snd].
    by destruct (Devlib.getattr _ _ _).1.
  - by rewrite object_getattribute_state.
Qed.

(** *** What any sequence of calls keeps *)

Lemma bind_ret_state {A B} (m : M A) (f : A → B) (st : State) :
  (bind m (λ a, ret (f a)) st).2 = (m st).2.
Proof. unfold bind. by destruct (m st) as [[a|e|] st']. Qed.

Lemma appended_cons (c : method_call) (o : outcome (pyval P V))
    (h : list (method_call * outcome (pyval P V))) :
  appended ((c, o) :: h) = appended [(c, o)] ++ appended h.
Proof. unfold appended. cbn [flat_map]. by rewrite app_nil_r. Qed.

Lemma push_frame (st : State) :
  script_name (self (push st).2) = script_name (self st)
  ∧ local_path (self (push st).2) = local_path (self st)
  ∧ commands (self (push st).2) = commands (self st)
  ∧ ∀ path, path ≠ local_path (self st) →
      files (world (push st).2) !! path = files (world st) !! path.
Proof.
  rewrite push_eq. cbv zeta. destruct (Devlib.open_w _ _ _); [done|].
  destruct (Devlib.install _ _ _ _).1 as [e|remote];
    cbn [fst snd self world files script_name local_path commands];
    (repeat split; try done); intros path Hpath; by rewrite lookup_insert_ne.
Qed.

Lemma background_frame (as_root : bool) (st : State) :
  script_name (self (background as_root st).2) = script_name (self st)
  ∧ local_path (self (background as_root st).2) = local_path (self st)
  ∧ commands (self (background as_root st).2) = commands (self st).
Proof.
  rewrite background_eq. pose proof (keeps_prerun_check st) as Hpre.
  destruct (_prerun_check target st) as [[[]|e|] st']; cbn [fst snd] in *;
    try by rewrite Hpre.
  cbv zeta. destruct (Devlib.background _ _ _ _).1; cbn [snd self];
    by rewrite ?Hpre.
Qed.

Lemma invoke_frame (c : method_call) (st : State) :
  let r := invoke target host c st in
  script_name (self r.2) = script_name (self st)
  ∧ local_path (self r.2) = local_path (self st)
  ∧ commands (self r.2) = commands (self st) ++ appended [(c, r.1)]
  ∧ ∀ path, path ≠ local_path (self st) →
      files (world r.2) !! path = files (world st) !! path.
Proof.
  destruct c; cbv zeta; cbn [invoke appended flat_map fst];
    rewrite ?app_nil_r, ?bind_ret_state.
  - done.
  - done.
  - apply push_frame.
  - by rewrite keeps_run, keeps_files_run.
  - rewrite keeps_files_background.
    destruct (background_frame as_root st) as (? & ? & ?). done.
  - by rewrite keeps_wait, keeps_files_wait.
  - by rewrite keeps_kill, keeps_files_kill.
  - by rewrite keeps_read_attr, keeps_files_read_attr.
Qed.

Lemma session_frame (cs : list method_call) (st : State) :
  let r := session cs st in
  script_name (self r.2) = script_name (self st)
  ∧ local_path (self r.2) = local_path (self st)
  ∧ commands (self r.2) = commands (self st) ++ appended r.1
  ∧ ∀ path, path ≠ local_path (self st) →
      files (world r.2) !! path = files (world st) !! path.
Proof.
  revert st. induction cs as [|c cs IH]; intros st; cbv zeta.
  { cbn [session fst snd appended flat_map]. by rewrite app_nil_r. }
  rewrite session_cons.
  destruct (invoke_frame c st) as (Hname & Hpath & Hcmds & Hfiles).
  destruct (IH (invoke target host c st).2) as (Hname' & Hpath' & Hcmds' & Hfiles').
  cbv zeta in *.
  destruct (invoke target host c st).1 as [v|e|] eqn:Ho; cbn [fst snd];
    [| |by auto];
    rewrite Hname', Hpath', Hcmds', Hname, Hpath, Hcmds;
    rewrite (appended_cons c _ (session cs (invoke target host c st).2).1);
    (split; [done|]); (split; [done|]); (split; [by rewrite app_assoc|]);
    intros path Hne; (rewrite Hfiles' by congruence); by apply Hfiles.
Qed.

(** Whatever calls are made, and whatever they raise, [commands] is what
    it was followed by the commands given to [append] and [execute], in
    the order of the calls: no other method touches it, and none is
    dropped.  On a new script it is exactly those commands. *)
Theorem session_commands
    (cs : list method_call) (st : State) (name dir : string) (w : World T P) :
  commands (self (session cs st).2)
    = commands (self st) ++ appended (session cs st).1
  ∧ commands (self (session cs (constructed name dir w)).2)
    = appended (session cs (constructed name dir w)).1.
Proof.
  split.
  - by destruct (session_frame cs st) as (_ & _ & ? & _).
  - by destruct (session_frame cs (constructed name dir w)) as (_ & _ & ? & _).
Qed.

(** [script_name] and [local_path] are fixed at construction: no
    sequence of calls changes them. *)
Theorem session_names (cs : list method_call) (st : State) :
  script_name (self (session cs st).2) = script_name (self st)
  ∧ local_path (self (session cs st).2) = local_path (self st).
Proof. by destruct (session_frame cs st) as (? & ? & _). Qed.


(** *** How the methods compose *)

(** [push] does not empty [commands]: after a [push], whatever its
    outcome, a command appended and a second [push] hand to [open] the
    script of the old commands followed by the new one. *)
Theorem push_accumulates (cmd : string) (st : State) :
  let st1 := (push st).2 in
  let st2 := (append cmd st1).2 in
  let text := script_text (Devlib.busybox target (device (world st2)))
                          (commands (self st) ++ [cmd]) in
  ∃ rest,
    log (world (push st2).2)
    = log (world st1) ++ EOpenWrite (local_path (self st)) text :: rest.
Proof.
  intros st1 st2 text.
  destruct (push_frame st) as (_ & Hpath & Hcmds & _). fold st1 in Hpath, Hcmds.
  rewrite push_eq. cbv zeta.
  assert (Hself2 : commands (self st2) = commands (self st) ++ [cmd]
                   ∧ local_path (self st2) = local_path (self st)
                   ∧ world st2 = world st1).
  { subst st2. rewrite append_eq. cbn [snd self world commands local_path].
    by rewrite Hpath, Hcmds. }
  destruct Hself2 as (-> & -> & Hw). fold text. rewrite <- Hw.
  destruct (Devlib.open_w _ _ _); [by exists []|]. cbv zeta.
  destruct (Devlib.install _ _ _ _).1; cbn [snd world log];
    exists [EInstall (local_path (self st))]; by rewrite <- app_assoc.
Qed.

(** The calls of [push] followed by [run], when each step goes through:
    the script is written, installed, the path that [install] returned
    is checked and then executed, once each and in that order, and the
    result of [run] is the result of that execution. *)
Theorem push_then_run_calls
    (as_root : bool) (timeout : option Z) (st : State)
    (remote : string) (d d' : T) :
  let path := local_path (self st) in
  let text := script_text (Devlib.busybox target (device (world st)))
                          (commands (self st)) in
  Devlib.open_w host path (files (world st)) = None →
  Devlib.install target (<[path := text]> (files (world st))) path
    (device (world st)) = (inr remote, d) →
  Devlib.file_exists target remote d = (inr true, d') →
  let after := run as_root timeout (push st).2 in
  log (world after.2)
  = log (world st) ++ [EOpenWrite path text; EInstall path;
                       EFileExists remote; EExecute remote as_root timeout]
  ∧ after.1 = answer (Devlib.execute target remote as_root timeout d').1.
Proof.
  intros path text Hopen Hinstall Hfound after. subst after path text.
  rewrite run_eq, prerun_check_eq, push_eq. cbv zeta.
  rewrite Hopen, Hinstall. cbn [fst snd self world device remote_path].
  rewrite Hfound. cbn [fst snd]. rewrite call_eq.
  cbn [fst snd self world device log remote_path].
  by rewrite <- !app_assoc.
Qed.

(** *** The lines of the script *)

Lemma has_append (c : ascii) (a b : string) :
  Py.has c (a +:+ b) = Py.has c a || Py.has c b.
Proof.
  induction a as [|x a IH]; [done|].
  simpl. by rewrite IH, orb_assoc.
Qed.

Lemma split_without (c : ascii) (s : string) :
  Py.has c s = false → Py.split c s = [s].
Proof.
  induction s as [|x s IH]; [done|]. cbn [Py.has Py.split].
  intros [Hx Hs]%orb_false_elim. by rewrite Hx, (IH Hs).
Qed.

Lemma split_append (c : ascii) (a rest : string) :
  Py.has c a = false →
  Py.split c (a +:+ String c rest) = a :: Py.split c rest.
Proof.
  induction a as [|x a IH].
  - intros _. simpl. by rewrite Ascii.eqb_refl.
  - simpl.
    intros [Hx Ha]%orb_false_elim. by rewrite Hx, (IH Ha).
Qed.

Lemma split_join (c : ascii) (l : list string) :
  l ≠ [] →
  Forall (λ x, Py.has c x = false) l →
  Py.split c (Py.join (String c "") l) = l.
Proof.
  induction l as [|x [|y l] IH]; [done| |]; intros _ Hl.
  - cbn [Py.join]. apply split_without. by inversion Hl.
  - change (Py.join (String c "") (x :: y :: l))
      with (x +:+ String c (Py.join (String c "") (y :: l))).
    inversion Hl as [|? ? Hx Hrest]; subst.
    rewrite split_append by done. f_equal. by apply IH.
Qed.

(** When neither the target's busybox path nor any accumulated command
    contains a newline, the file that a [push] has written splits at
    newlines into the shebang line, [set -e], the commands one per line
    in their order, and [set +e]: nothing before, between or after. *)
Theorem pushed_script_lines (st : State) :
  let busybox := Devlib.busybox target (device (world st)) in
  let newline := ascii_of_nat 10 in
  Py.has newline busybox = false →
  Forall (λ cmd, Py.has newline cmd = false) (commands (self st)) →
  Devlib.open_w host (local_path (self st)) (files (world st)) = None →
  ∃ text,
    files (world (push st).2) !! local_path (self st) = Some text
    ∧ Py.split newline text =
        ("#!" +:+ busybox +:+ " sh") :: "set -e"
        :: commands (self st) ++ ["set +e"].
Proof.
  intros busybox newline Hbb Hcmds Hopen.
  exists (script_text busybox (commands (self st))). split.
  - rewrite push_eq. cbv zeta. rewrite Hopen. fold busybox.
    destruct (Devlib.install _ _ _ _).1; apply lookup_insert_eq.
  - unfold script_text. apply split_join; [done|].
    apply List.Forall_cons; [by rewrite !has_append, Hbb|].
    apply List.Forall_cons; [done|].
    apply Forall_app. split; [done|]. by apply List.Forall_cons.
Qed.

(** *** More on the attribute proxy *)

Lemma target_attrs_not_defined (name : string) (s : TargetScript P) :
  name ∈ _target_attrs →
  instance_attr (V:=V) s name = None ∧ class_attr (P:=P) (V:=V) name = None.
Proof.
  unfold _target_attrs. intros Hin.
  repeat (apply elem_of_cons in Hin as [->|Hin]; [by split|]).
  by apply elem_of_nil in Hin.
Qed.

(** No name of [_target_attrs] is an attribute that [__init__] sets or
    that the class body defines, so reading one always goes to the
    target, once, unless the interpreter itself resolves the name: the
    result is the target's value or exception, and nothing but the
    device and the log changes. *)
Theorem allow_listed_read_is_forwarded (name : string) (st : State) :
  name ∈ _target_attrs →
  Devlib.object_attr host name = false →
  let r := Devlib.getattr target name (device (world st)) in
  read_attr name st =
  (match r.1 with inr v => Ret (VRemote v) | inl e => Raise (Foreign e) end,
   {| self := self st;
      world := {| files := files (world st); device := r.2;
                  log := log (world st) ++ [EGetattr name] |} |}).
Proof.
  intros Hin Hobject r.
  destruct (target_attrs_not_defined name (self st) Hin) as [Hinst Hclass].
  assert (Hobj : (object_getattribute (V:=V) host name st).1
                 = Raise (AttributeError name)).
  { unfold object_getattribute, bind, get_self. cbn [fst snd].
    by rewrite Hinst, Hclass, Hobject. }
  rewrite read_attr_fallback by done. unfold __getattr__.
  rewrite target_attrs_not_dunder by done.
  rewrite bool_decide_eq_true_2 by done. cbn [negb andb].
  unfold bind. rewrite call_eq. fold r. by destruct r.1.
Qed.

(** Reading an attribute never assigns one and never writes a file, and
    the only call it can make is one [getattr] on the target, for a name
    of [_target_attrs] that is not a dunder name; in every other case
    the world is left as it was. *)
Theorem read_attr_calls (name : string) (st : State) :
  let after := read_attr name st in
  self after.2 = self st
  ∧ files (world after.2) = files (world st)
  ∧ (after.2 = st
     ∨ (name ∈ _target_attrs
        ∧ Py.startswith "__" name && Py.endswith "__" name = false
        ∧ log (world after.2) = log (world st) ++ [EGetattr name])).
Proof.
  intros after. subst after.
  split; [apply keeps_read_attr|]. split; [apply keeps_files_read_attr|].
  unfold read_attr.
  pose proof (object_getattribute_state name st) as Hst.
  destruct (object_getattribute host name st) as [[v|[]|] st'];
    cbn [fst snd] in *; subst st'; try by left.
  unfold __getattr__.
  destruct (Py.startswith "__" name && Py.endswith "__" name) eqn:Hdunder;
    cbn [negb andb].
  - left. apply object_getattribute_state.
  - destruct (bool_decide (name ∈ _target_attrs)) eqn:Hin.
    + right. apply bool_decide_eq_true_1 in Hin. split; [done|].
      split; [done|]. unfold bind. rewrite call_eq. cbn [fst snd].
      by destruct (Devlib.getattr _ _ _).1.
    + left. apply object_getattribute_state.
Qed.

End Properties.

(** ** The properties on the stub collaborators *)

Section OnStubs.
Import Stub.

(** The scenario of the specification: the two commands of [hello]
    appended to a new script, then [push]. *)
Lemma push_writes_appended_commands_witness :
  let st2 := (push phone laptop
                (session phone laptop (CAppend <$> hello) script0).2).2 in
  Devlib.open_w laptop "./remote_script.sh" (files (world script0)) = None
  ∧ files (world st2) !! "./remote_script.sh" =
      Some ("#!/data/local/tmp/bin/busybox sh" +:+ Py.nl +:+ "set -e" +:+ Py.nl
            +:+ "echo hello" +:+ Py.nl +:+ "touch /tmp/x" +:+ Py.nl +:+ "set +e").
Proof.
  split; [reflexivity|].
  destruct (push_writes_appended_commands phone laptop script0 hello) as [_ H].
  apply H. reflexivity.
Defined.

Lemma push_install_failure_keeps_state_witness :
  let st := (session read_only laptop (CAppend <$> hello) script0).2 in
  let text := script_text "/data/local/tmp/bin/busybox" hello in
  Devlib.open_w laptop "./remote_script.sh" (files (world st)) = None
  ∧ Devlib.install read_only (<["./remote_script.sh" := text]> (files (world st)))
      "./remote_script.sh" (device (world st))
    = (inl "TargetStableError", device boot)
  ∧ (push read_only laptop st).1 = Raise (Foreign "TargetStableError")
  ∧ remote_path (self (push read_only laptop st).2) = ""
  ∧ commands (self (push read_only laptop st).2) = hello.
Proof.
  intros st text.
  assert (Hopen : Devlib.open_w laptop (local_path (self st)) (files (world st))
                  = None) by reflexivity.
  assert (Hinstall :
    Devlib.install read_only
      (<[local_path (self st) :=
           script_text (Devlib.busybox read_only (device (world st)))
             (commands (self st))]> (files (world st)))
      (local_path (self st)) (device (world st))
    = (inl "TargetStableError", device boot)) by reflexivity.
  destruct (push_install_failure_keeps_state read_only laptop st
              "TargetStableError" (device boot) Hopen Hinstall)
    as (Hraise & _ & Hpath & Hcmds & _).
  split; [reflexivity|]. split; [reflexivity|]. split; [exact Hraise|].
  split; [exact Hpath | exact Hcmds].
Defined.

Lemma push_twice_same_content_witness :
  let st := (session phone laptop (CAppend <$> hello) script0).2 in
  let st' := (push phone laptop st).2 in
  returned (push phone laptop st).1 = true
  ∧ returned (push phone laptop st').1 = true
  ∧ files (world (push phone laptop st).2) !! "./remote_script.sh"
    = files (world (push phone laptop st').2) !! "./remote_script.sh".
Proof.
  intros st st'.
  assert (H1 : returned (push phone laptop st).1 = true) by reflexivity.
  assert (H2 : returned (push phone laptop st').1 = true) by reflexivity.
  destruct (push_twice_same_content phone laptop st st'
              eq_refl eq_refl eq_refl H1 H2) as (text & Ha & Hb & _).
  split; [exact H1|]. split; [exact H2|].
  exact (eq_trans Ha (eq_sym Hb)).
Defined.
(** No [background] among a few calls. *)
Lemma wait_kill_without_background_witness :
  let cs := [CAppend "ls"; CPush; CRun false None; CRead "model"] in
  let st := (session phone laptop cs script0).2 in
  no_background cs
  ∧ wait phone 1 5 st = (Raise (RuntimeError no_background_msg), st)
  ∧ kill phone true st = (Raise (RuntimeError no_background_msg), st).
Proof.
  intros cs st.
  assert (Hcs : no_background cs).
  { intros as_root Hin.
    repeat (apply elem_of_cons in Hin as [Hin|Hin]; [discriminate|]).
    by apply elem_of_nil in Hin. }
  split; [exact Hcs|].
  exact (wait_kill_without_background phone laptop
           "remote_script.sh" "./" boot cs Hcs 1 5%nat true).
Defined.

(** A [push] that raised, then [run] and [background]. *)
Lemma run_without_push_witness :
  let cs := [CAppend "ls"; CPush; CRead "model"] in
  let r := session read_only laptop cs script0 in
  never_pushed r.1
  ∧ (Devlib.file_exists read_only "" (device (world r.2))).1 = inr false
  ∧ remote_path (self r.2) = ""
  ∧ (run read_only false None r.2).1 = Raise (FileNotFoundError missing_msg)
  ∧ (background read_only false r.2).1 = Raise (FileNotFoundError missing_msg).
Proof.
  intros cs r.
  assert (Hr : never_pushed r.1).
  { intros o Hin. vm_compute in Hin.
    repeat (apply elem_of_cons in Hin as [Hin|Hin];
            [first [discriminate | by inversion Hin]|]).
    by apply elem_of_nil in Hin. }
  assert (Hfe : (Devlib.file_exists read_only "" (device (world r.2))).1
                = inr false) by reflexivity.
  destruct (run_without_push read_only laptop "remote_script.sh" "./" boot cs Hr)
    as [Hpath Hrun].
  destruct (Hrun false None Hfe) as [Hrun1 Hrun2].
  split; [exact Hr|]. split; [exact Hfe|]. split; [exact Hpath|].
  split; [exact Hrun1 | exact Hrun2].
Defined.

(** C3: a target that reports the empty path as existing lets [run] and
    [background] go through on a script never pushed, and one that does
    not answer makes them raise its own exception. *)
Lemma run_without_push_may_not_raise_missing :
  never_pushed (session credulous laptop [] script0).1
  ∧ (run credulous false None script0).1 = Ret tt
  ∧ (background credulous false script0).1 = Ret (Some 1%nat)
  ∧ (run unreachable false None script0).1
    = Raise (Foreign "TargetNotRespondingError")
  ∧ (background unreachable false script0).1
    = Raise (Foreign "TargetNotRespondingError").
Proof.
  split; [|by repeat split].
  intros o Hin. by apply elem_of_nil in Hin.
Qed.

Lemma phone_consistent fs path d remote d' :
  Devlib.install phone fs path d = (inr remote, d') →
  (Devlib.file_exists phone remote d').1 = inr true.
Proof.
  cbn [Devlib.install Devlib.file_exists phone fst].
  destruct (fs !! path); [|discriminate]. intros [= <- <-].
  cbn [installed]. f_equal. apply bool_decide_eq_true_2. left.
Defined.

Lemma run_after_push_witness :
  let st := (session phone laptop (CAppend <$> hello) script0).2 in
  returned (push phone laptop st).1 = true
  ∧ (_prerun_check phone (push phone laptop st).2).1 = Ret tt
  ∧ (run phone false None (push phone laptop st).2).1
    ≠ Raise (FileNotFoundError missing_msg)
  ∧ (background phone false (push phone laptop st).2).1
    ≠ Raise (FileNotFoundError missing_msg).
Proof.
  intros st.
  assert (Hpush : returned (push phone laptop st).1 = true) by reflexivity.
  destruct (run_after_push phone laptop st phone_consistent Hpush)
    as [Hpre Hrun].
  destruct (Hrun false None missing_msg) as [Hrun1 Hrun2].
  split; [exact Hpush|]. split; [exact Hpre|]. split; [exact Hrun1 | exact Hrun2].
Defined.

Lemma kill_keeps_handle_witness :
  let st := (session phone laptop [CPush] script0).2 in
  let st1 := (background phone false st).2 in
  let cs := [CKill false; CWait 1 5; CKill true] in
  (background phone false st).1 = Ret (Some 1%nat)
  ∧ no_background cs
  ∧ _proc (self (kill phone false st1).2) = Some 1%nat
  ∧ _proc (self (session phone laptop cs st1).2) = Some 1%nat
  ∧ (wait phone 1 5 (session phone laptop cs st1).2).1
    ≠ Raise (RuntimeError no_background_msg).
Proof.
  intros st st1 cs.
  assert (Hbg : (background phone false st).1 = Ret (Some 1%nat)) by reflexivity.
  assert (Hcs : no_background cs).
  { intros as_root Hin.
    repeat (apply elem_of_cons in Hin as [Hin|Hin]; [discriminate|]).
    by apply elem_of_nil in Hin. }
  destruct (kill_keeps_handle phone laptop st false 1%nat Hbg)
    as (_ & Hkill & Hlater).
  destruct (Hlater cs Hcs) as [Hp Hwait].
  destruct (Hwait 1 5%nat false no_background_msg) as [Hwait1 _].
  split; [exact Hbg|]. split; [exact Hcs|]. split; [exact Hkill|].
  split; [exact Hp | exact Hwait1].
Defined.

(** C2: after [push], [background] and [kill], all of which return,
    [_proc] is still the handle, and [wait] and a second [kill] return
    instead of raising [RuntimeError]. *)
Lemma wait_after_kill_does_not_raise :
  let r := session phone laptop [CPush; CBackground false; CKill false] script0 in
  r.1 = [(CPush, Ret VNone); (CBackground false, Ret (VPopen 1%nat));
         (CKill false, Ret VNone)]
  ∧ _proc (self r.2) = Some 1%nat
  ∧ (wait phone 1 5 r.2).1 = Ret tt
  ∧ (kill phone false r.2).1 = Ret tt.
Proof. by repeat split. Qed.

Lemma kill_termination_calls_witness :
  let st := (session phone laptop [CPush; CBackground false] script0).2 in
  _proc (self st) = Some 1%nat
  ∧ log (world (kill phone false st).2) =
      log (world st) ++ [EKill "$(pgrep -x remote_script.sh)" false;
                         EProcKill 1%nat]
  ∧ (kill phone false st).1 = Ret tt.
Proof.
  intros st.
  assert (Hp : _proc (self st) = Some 1%nat) by reflexivity.
  split; [exact Hp|].
  exact (kill_termination_calls phone st 1%nat false Hp).
Defined.

(** C7: when the remote [kill] raises, [kill] stops there: the handle's
    [kill] is not called. *)
Lemma kill_skips_handle_when_remote_kill_raises :
  let st := (session no_such_process laptop [CPush; CBackground false] script0).2 in
  _proc (self st) = Some 1%nat
  ∧ (kill no_such_process false st).1 = Raise (Foreign "TargetStableError")
  ∧ last (log (world (kill no_such_process false st).2))
    = Some (EKill "$(pgrep -x remote_script.sh)" false)
  ∧ ∀ p, EProcKill p ∉ log (world (kill no_such_process false st).2).
Proof.
  intros st. split; [reflexivity|]. split; [reflexivity|].
  split; [reflexivity|].
  intros p Hin. vm_compute in Hin.
  repeat (apply elem_of_cons in Hin as [Hin|Hin]; [discriminate|]).
  by apply elem_of_nil in Hin.
Qed.

Lemma attribute_proxy_witness :
  let st := (session phone laptop [CPush] script0).2 in
  ("model" ∈ _target_attrs
   ∧ (object_getattribute (V:=string) laptop "model" st).1
     = Raise (AttributeError "model")
   ∧ (read_attr phone laptop "model" st).1 = Ret (VRemote "stub model"))
  ∧ (("serial" ∉ _target_attrs)
     ∧ (object_getattribute (V:=string) laptop "serial" st).1
       = Raise (AttributeError "serial")
     ∧ read_attr phone laptop "serial" st = (Raise (AttributeError "serial"), st))
  ∧ (Py.startswith "__" "__setstate__" && Py.endswith "__" "__setstate__" = true
     ∧ log (world (read_attr phone laptop "__setstate__" st).2) = log (world st)).
Proof.
  intros st. split; [|split].
  - assert (Hin : "model" ∈ _target_attrs).
    { unfold _target_attrs. do 4 right. left. }
    assert (Hobj : (object_getattribute (V:=string) laptop "model" st).1
                   = Raise (AttributeError "model")) by reflexivity.
    destruct (attribute_proxy phone laptop "model" st) as [H _].
    destruct (H Hin Hobj) as [Hread _].
    split; [exact Hin|]. split; [exact Hobj | exact Hread].
  - assert (Hout : "serial" ∉ _target_attrs).
    { unfold _target_attrs. intros Hin.
      repeat (apply elem_of_cons in Hin as [Hin|Hin]; [discriminate|]).
      by apply elem_of_nil in Hin. }
    assert (Hobj : (object_getattribute (V:=string) laptop "serial" st).1
                   = Raise (AttributeError "serial")) by reflexivity.
    destruct (attribute_proxy phone laptop "serial" st) as (_ & H & _).
    split; [exact Hout|]. split; [exact Hobj | exact (H Hout Hobj)].
  - assert (Hdunder : Py.startswith "__" "__setstate__"
                      && Py.endswith "__" "__setstate__" = true) by reflexivity.
    destruct (attribute_proxy phone laptop "__setstate__" st) as (_ & _ & H).
    destruct (H Hdunder) as (_ & _ & Hlog).
    split; [exact Hdunder | exact Hlog].
Defined.

(** A script that was killed: one poll and [wait] is back. *)
Lemma wait_finished_process_witness :
  let st := (session phone laptop [CPush; CBackground false; CKill false]
               script0).2 in
  _proc (self st) = Some 1%nat
  ∧ (Devlib.poll phone 1%nat (device (world st))).1 = inr (Some (-9))
  ∧ (wait phone 1 (S 0) st).1 = Ret tt
  ∧ log (world (wait phone 1 (S 0) st).2) = log (world st) ++ [EPoll 1%nat].
Proof.
  intros st.
  assert (Hp : _proc (self st) = Some 1%nat) by reflexivity.
  assert (Hpoll : (Devlib.poll phone 1%nat (device (world st))).1
                  = inr (Some (-9))) by reflexivity.
  pose proof (wait_finished_process phone 1 0%nat st 1%nat (-9) Hp Hpoll) as H.
  split; [exact Hp|]. split; [exact Hpoll|].
  split; [exact (f_equal fst H) | exact (f_equal (λ r, log (world r.2)) H)].
Defined.

(** A script still running, on a phone that stops answering, and with a
    negative sleep. *)
Lemma wait_running_process_witness :
  let st := (session phone laptop [CPush; CBackground false] script0).2 in
  let d := (Devlib.poll phone 1%nat (device (world st))).2 in
  _proc (self st) = Some 1%nat
  ∧ Devlib.poll phone 1%nat (device (world st)) = (inr None, d)
  ∧ (Devlib.check_responsive unreachable true d).1
    = inl "TargetNotRespondingError"
  ∧ (wait unreachable 1 (S 4) st).1 = Raise (Foreign "TargetNotRespondingError")
  ∧ (Devlib.check_responsive phone true d).1 = inr tt
  ∧ -1 < 0
  ∧ (wait phone (-1) (S 4) st).1
    = Raise (ValueError "sleep length must be non-negative").
Proof.
  intros st d.
  assert (Hp : _proc (self st) = Some 1%nat) by reflexivity.
  assert (Hpoll : Devlib.poll phone 1%nat (device (world st)) = (inr None, d))
    by (vm_compute; reflexivity).
  assert (Hdown : (Devlib.check_responsive unreachable true d).1
                  = inl "TargetNotRespondingError") by reflexivity.
  assert (Hup : (Devlib.check_responsive phone true d).1 = inr tt)
    by reflexivity.
  assert (Hneg : -1 < 0) by reflexivity.
  destruct (wait_running_process unreachable 1 4%nat st 1%nat d Hp Hpoll)
    as [Hraise _].
  destruct (wait_running_process phone (-1) 4%nat st 1%nat d Hp Hpoll)
    as [_ Hsleep].
  split; [exact Hp|]. split; [exact Hpoll|]. split; [exact Hdown|].
  split; [exact (proj1 (Hraise _ Hdown))|]. split; [exact Hup|].
  split; [exact Hneg|]. exact (proj1 (Hsleep Hup Hneg)).
Defined.


Lemma wait_calls_witness :
  let st := (session phone laptop [CPush; CBackground false] script0).2 in
  _proc (self st) = Some 1%nat
  ∧ self (wait phone 1 5 st).2 = self st
  ∧ last (log (world (wait phone 1 5 st).2)) = Some (EPoll 1%nat).
Proof.
  intros st.
  assert (Hp : _proc (self st) = Some 1%nat) by reflexivity.
  destruct (wait_calls phone 1 5%nat st 1%nat Hp) as (Hself & _ & Hlast).
  split; [exact Hp|]. split; [exact Hself|]. exact (Hlast eq_refl).
Defined.


Lemma push_then_run_calls_witness :
  let st := (session phone laptop (CAppend <$> hello) script0).2 in
  let text := script_text "/data/local/tmp/bin/busybox" hello in
  let remote := "/data/local/tmp/bin/./remote_script.sh" in
  let d := {| installed := [remote]; running := None |} in
  Devlib.open_w laptop "./remote_script.sh" (files (world st)) = None
  ∧ Devlib.install phone (<["./remote_script.sh" := text]> (files (world st)))
      "./remote_script.sh" (device (world st)) = (inr remote, d)
  ∧ Devlib.file_exists phone remote d = (inr true, d)
  ∧ log (world (run phone true (Some 10) (push phone laptop st).2).2)
    = [EOpenWrite "./remote_script.sh" text; EInstall "./remote_script.sh";
       EFileExists remote; EExecute remote true (Some 10)]
  ∧ (run phone true (Some 10) (push phone laptop st).2).1 = Ret tt.
Proof.
  intros st text remote d.
  assert (Hopen : Devlib.open_w laptop (local_path (self st)) (files (world st))
                  = None) by reflexivity.
  assert (Hinstall :
    Devlib.install phone
      (<[local_path (self st) :=
           script_text (Devlib.busybox phone (device (world st)))
             (commands (self st))]> (files (world st)))
      (local_path (self st)) (device (world st)) = (inr remote, d))
    by reflexivity.
  assert (Hfound : Devlib.file_exists phone remote d = (inr true, d))
    by reflexivity.
  destruct (push_then_run_calls phone laptop true (Some 10) st remote d d
              Hopen Hinstall Hfound) as [Hlog Hres].
  split; [reflexivity|]. split; [reflexivity|]. split; [exact Hfound|].
  split; [exact Hlog | exact Hres].
Defined.

(** The scenario of the specification, line by line. *)
Lemma pushed_script_lines_witness :
  let st := (session phone laptop (CAppend <$> hello) script0).2 in
  Py.has (ascii_of_nat 10) (Devlib.busybox phone (device (world st))) = false
  ∧ Forall (λ cmd, Py.has (ascii_of_nat 10) cmd = false) (commands (self st))
  ∧ Devlib.open_w laptop (local_path (self st)) (files (world st)) = None
  ∧ ∃ text,
      files (world (push phone laptop st).2) !! "./remote_script.sh" = Some text
      ∧ Py.split (ascii_of_nat 10) text =
          ["#!/data/local/tmp/bin/busybox sh"; "set -e"; "echo hello";
           "touch /tmp/x"; "set +e"].
Proof.
  intros st.
  assert (Hbb : Py.has (ascii_of_nat 10)
                  (Devlib.busybox phone (device (world st))) = false)
    by reflexivity.
  assert (Hcmds : Forall (λ cmd, Py.has (ascii_of_nat 10) cmd = false)
                    (commands (self st))).
  { apply List.Forall_cons; [reflexivity|].
    apply List.Forall_cons; [reflexivity|]. apply List.Forall_nil. }
  assert (Hopen : Devlib.open_w laptop (local_path (self st)) (files (world st))
                  = None) by reflexivity.
  split; [exact Hbb|]. split; [exact Hcmds|]. split; [exact Hopen|].
  exact (pushed_script_lines phone laptop st Hbb Hcmds Hopen).
Defined.

Lemma allow_listed_read_is_forwarded_witness :
  "abi" ∈ _target_attrs
  ∧ Devlib.object_attr laptop "abi" = false
  ∧ read_attr phone laptop "abi" script0
    = (Ret (VRemote "stub abi"),
       {| self := self script0;
          world := {| files := ∅; device := device boot;
                      log := [EGetattr "abi"] |} |}).
Proof.
  assert (Hin : "abi" ∈ _target_attrs).
  { unfold _target_attrs. do 2 right. left. }
  assert (Hobject : Devlib.object_attr laptop "abi" = false) by reflexivity.
  split; [exact Hin|]. split; [exact Hobject|].
  exact (allow_listed_read_is_forwarded phone laptop "abi" script0 Hin Hobject).
Defined.

End OnStubs.
